(** * k3s-infra: the Pulumi program [__main__.py], embedded and verified

    The program declares a VPC, a subnet, two security groups, one K3s
    control node, two K3s workers and an nginx load balancer.  Values
    that are only known after a resource exists (private addresses) are
    Pulumi [Output]s; the scripts handed to the instances are built from
    them with [Output.all(...).apply(...)] and [str.replace]. *)

From Stdlib Require Import String Ascii List ZArith Lia Bool.
From stdpp Require Import base option strings gmap list.

(** ** Python string operations used by the program *)

Module Py.

(** [c in s] for a single character. *)
Fixpoint mem (c : ascii) (s : string) : bool :=
  match s with
  | EmptyString => false
  | String d s' => Ascii.eqb c d || mem c s'
  end.

(** [s.startswith(old)]. *)
Definition startswith (old s : string) : bool := String.prefix old s.

(** [old in s]: some suffix of [s] starts with [old]. *)
Fixpoint contains (old s : string) : bool :=
  match s with
  | EmptyString => startswith old EmptyString
  | String _ s' => startswith old s || contains old s'
  end.

(** The last character of a string, when there is one. *)
Fixpoint last_char (s : string) : option ascii :=
  match s with
  | EmptyString => None
  | String c EmptyString => Some c
  | String _ s' => last_char s'
  end.

(** [s.replace("", new)]: [new] before every character and at the end. *)
Fixpoint replace_empty (new s : string) : string :=
  match s with
  | EmptyString => new
  | String c s' => new +:+ String c (replace_empty new s')
  end.

(** The left-to-right scan of [s.replace(old, new)] for a non-empty
    [old]; [skip] counts the characters of a match still to be dropped. *)
Fixpoint replace_from (old new : string) (skip : nat) (s : string) : string :=
  match s with
  | EmptyString => EmptyString
  | String c s' =>
      match skip with
      | S k => replace_from old new k s'
      | O =>
          if startswith old s
          then new +:+ replace_from old new (String.length old - 1) s'
          else String c (replace_from old new 0 s')
      end
  end.

(** [s.replace(old, new)]: every non-overlapping occurrence, leftmost first. *)
Definition replace (old new s : string) : string :=
  match old with
  | EmptyString => replace_empty new s
  | String _ _ => replace_from old new 0 s
  end.

(** ["\n".join(lines) + "\n"]: a text given line by line. *)
Fixpoint unlines (ls : list string) : string :=
  match ls with
  | [] => EmptyString
  | l :: ls' => l +:+ String "010"%char (unlines ls')
  end.

(** No occurrence of [old] in [a +:+ b] starts inside [a]. *)
Fixpoint clear (old a b : string) : Prop :=
  match a with
  | EmptyString => True
  | String _ a' => startswith old (a +:+ b) = false /\ clear old a' b
  end.

End Py.

(** ** Pulumi inputs and outputs *)

Module Pulumi.

(** An attribute of a declared resource: (logical name, attribute name). *)
Definition ref : Type := string * string.

(** The two shapes of [Output] the program builds: a resource attribute
    [r.attr], and [Output.all(r1.a1, ..., rn.an).apply(f)].  [f] returns
    [None] where the Python lambda would raise. *)
Inductive Output : Type :=
  | Attr (res attr : string)
  | AllApply (srcs : list ref) (f : list string -> option string).

(** A resource argument: a plain Python value or an [Output]. *)
Inductive Input : Type :=
  | Lit (s : string)
  | Out (o : Output).

(** One entry of a security group's [ingress] / [egress] list. *)
Record rule : Type := Rule {
  protocol : string;
  from_port : Z;
  to_port : Z;
  cidr_blocks : list Input
}.

Definition tags_t : Type := list (string * string).

(** The constructor arguments of each resource class the program uses. *)
Inductive args : Type :=
  | Vpc (cidr_block : Input) (tags : tags_t)
  | Subnet (vpc_id cidr_block availability_zone : Input)
      (map_public_ip_on_launch : bool) (tags : tags_t)
  | InternetGateway (vpc_id : Input) (tags : tags_t)
  | RouteTable (vpc_id : Input) (tags : tags_t)
  | Route (route_table_id destination_cidr_block gateway_id : Input)
  | RouteTableAssociation (subnet_id route_table_id : Input)
  | SecurityGroup (vpc_id : Input) (description : string)
      (ingress egress : list rule) (tags : tags_t)
  | Instance (instance_type : string) (vpc_security_group_ids : list Input)
      (ami subnet_id : Input) (key_name : string)
      (associate_public_ip_address : bool) (user_data : Input) (tags : tags_t).

Record Resource : Type := { rname : string; rargs : args }.

(** [r.attr] for a declared resource [r]. *)
Definition attr (r : Resource) (a : string) : Output := Attr (rname r) a.

(** The attributes an [Output] waits for. *)
Definition sources (o : Output) : list ref :=
  match o with
  | Attr r a => [(r, a)]
  | AllApply srcs _ => srcs
  end.

(** What an [Output] computes from the values of its sources. *)
Definition compute (o : Output) (vs : list string) : option string :=
  match o with
  | Attr _ _ => vs !! 0%nat
  | AllApply _ f => f vs
  end.

Definition input_sources (i : Input) : list ref :=
  match i with
  | Lit _ => []
  | Out o => sources o
  end.

Definition rule_inputs (r : rule) : list Input := cidr_blocks r.

(** Every [Input] among a resource's arguments, in argument order. *)
Definition inputs (a : args) : list Input :=
  match a with
  | Vpc c _ => [c]
  | Subnet v c z _ _ => [v; c; z]
  | InternetGateway v _ => [v]
  | RouteTable v _ => [v]
  | Route t d g => [t; d; g]
  | RouteTableAssociation s t => [s; t]
  | SecurityGroup v _ ing eg _ =>
      v :: flat_map rule_inputs ing ++ flat_map rule_inputs eg
  | Instance _ sgs ami sn _ _ ud _ => sgs ++ [ami; sn; ud]
  end.

(** The attributes of other resources that a resource's arguments wait for. *)
Definition depends_on (r : Resource) : list ref :=
  flat_map input_sources (inputs (rargs r)).

Definition user_data_of (r : Resource) : option Input :=
  match rargs r with
  | Instance _ _ _ _ _ _ ud _ => Some ud
  | _ => None
  end.

Definition ami_of (r : Resource) : option Input :=
  match rargs r with
  | Instance _ _ ami _ _ _ _ _ => Some ami
  | _ => None
  end.

Definition security_groups_of (r : Resource) : list Input :=
  match rargs r with
  | Instance _ sgs _ _ _ _ _ _ => sgs
  | _ => []
  end.

Definition ingress_of (r : Resource) : list rule :=
  match rargs r with
  | SecurityGroup _ _ ing _ _ => ing
  | _ => []
  end.

Definition is_instance (r : Resource) : bool :=
  match rargs r with
  | Instance _ _ _ _ _ _ _ _ => true
  | _ => false
  end.

End Pulumi.

Import Pulumi.

(** ** The program *)

(** [config.get(key) or default]: the default also replaces an empty value. *)
Definition or_default (v : option string) (default : string) : string :=
  match v with
  | Some EmptyString => default
  | Some s => s
  | None => default
  end.

Definition dq : string := String "034"%char EmptyString.
Definition backslash : string := String "092"%char EmptyString.

Definition MASTER_PRIVATE_IP : string := "MASTER_PRIVATE_IP".
Definition WORKER1_PRIVATE_IP : string := "WORKER1_PRIVATE_IP".
Definition WORKER2_PRIVATE_IP : string := "WORKER2_PRIVATE_IP".

(** The module-level template [nginx_user_data]. *)
Definition nginx_user_data : string := Py.unlines [
  "#!/bin/bash";
  "apt-get update";
  "apt-get install -y nginx";
  "";
  "# Configure nginx as load balancer for K3s API server";
  "cat > /etc/nginx/nginx.conf << 'EOF'";
  "events {}";
  "stream {";
  "    upstream k3s_servers {";
  "        server MASTER_PRIVATE_IP:6443;";
  "        server WORKER1_PRIVATE_IP:6443;";
  "        server WORKER2_PRIVATE_IP:6443;";
  "    }";
  "    server {";
  "        listen 6443;";
  "        proxy_pass k3s_servers;";
  "    }";
  "}";
  "EOF";
  "";
  "systemctl enable nginx";
  "systemctl restart nginx"
].

(** The f-string passed as [user_data] of the master instance. *)
Definition master_user_data (k3s_token : string) : string := Py.unlines [
  "#!/bin/bash";
  "# Install K3s server";
  "curl -sfL https://get.k3s.io | K3S_TOKEN=" +:+ dq +:+ k3s_token +:+ dq
    +:+ " sh -s - server " +:+ backslash;
  "  --cluster-init";
  "";
  "# Wait for K3s to be ready";
  "until kubectl get nodes 2>/dev/null; do";
  "    echo " +:+ dq +:+ "Waiting for K3s to start..." +:+ dq;
  "    sleep 5";
  "done";
  "";
  "# Get kubeconfig for external access";
  "cp /etc/rancher/k3s/k3s.yaml /home/ubuntu/k3s.yaml";
  "chown ubuntu:ubuntu /home/ubuntu/k3s.yaml"
].

(** The f-string of the worker lambda, as a function of its two holes. *)
Definition worker_script (k3s_token master_ip : string) : string := Py.unlines [
  "#!/bin/bash";
  "# Install K3s agent";
  "curl -sfL https://get.k3s.io | K3S_TOKEN=" +:+ dq +:+ k3s_token +:+ dq
    +:+ " K3S_URL=https://" +:+ master_ip +:+ ":6443 sh -s -"
].

(** The worker lambda [lambda ips: f"...{k3s_token}...{ips[0]}..."]. *)
Definition worker_lambda (k3s_token : string) (ips : list string) : option string :=
  ip ← ips !! 0%nat;
  Some (worker_script k3s_token ip).

(** The load-balancer lambda, with the template it closes over made explicit:
    [template.replace(MASTER, ips[0]).replace(WORKER1, ips[1]).replace(WORKER2, ips[2])]. *)
Definition nginx_lambda (template : string) (ips : list string) : option string :=
  m ← ips !! 0%nat;
  w1 ← ips !! 1%nat;
  w2 ← ips !! 2%nat;
  Some (Py.replace WORKER2_PRIVATE_IP w2
         (Py.replace WORKER1_PRIVATE_IP w1
           (Py.replace MASTER_PRIVATE_IP m template))).

(** A text in which none of the three placeholder tokens occurs. *)
Definition token_free (s : string) : bool :=
  negb (Py.contains MASTER_PRIVATE_IP s)
  && negb (Py.contains WORKER1_PRIVATE_IP s)
  && negb (Py.contains WORKER2_PRIVATE_IP s).

(** The load-balancer script with the three addresses written in place. *)
Definition backend_config (m w1 w2 : string) : string := Py.unlines [
  "#!/bin/bash";
  "apt-get update";
  "apt-get install -y nginx";
  "";
  "# Configure nginx as load balancer for K3s API server";
  "cat > /etc/nginx/nginx.conf << 'EOF'";
  "events {}";
  "stream {";
  "    upstream k3s_servers {";
  "        server " +:+ m +:+ ":6443;";
  "        server " +:+ w1 +:+ ":6443;";
  "        server " +:+ w2 +:+ ":6443;";
  "    }";
  "    server {";
  "        listen 6443;";
  "        proxy_pass k3s_servers;";
  "    }";
  "}";
  "EOF";
  "";
  "systemctl enable nginx";
  "systemctl restart nginx"
].

(** An address in dotted-decimal notation: digits and dots only. *)
Fixpoint dotted_decimal (s : string) : bool :=
  match s with
  | EmptyString => true
  | String c s' =>
      (Ascii.eqb c "." || ((48 <=? nat_of_ascii c) && (nat_of_ascii c <=? 57)))
      && dotted_decimal s'
  end.

(** The template cut at its placeholders: the text before the first
    token, between two tokens, and after the last. *)
Definition seg_head : string := Py.unlines [
  "#!/bin/bash";
  "apt-get update";
  "apt-get install -y nginx";
  "";
  "# Configure nginx as load balancer for K3s API server";
  "cat > /etc/nginx/nginx.conf << 'EOF'";
  "events {}";
  "stream {";
  "    upstream k3s_servers {"
] +:+ "        server ".

Definition seg_mid : string := Py.unlines [":6443;"] +:+ "        server ".

Definition seg_tail : string := Py.unlines [
  ":6443;";
  "    }";
  "    server {";
  "        listen 6443;";
  "        proxy_pass k3s_servers;";
  "    }";
  "}";
  "EOF";
  "";
  "systemctl enable nginx";
  "systemctl restart nginx"
].

Section Program.

Variable config : gmap string string.

Definition vpc_cidr : string := or_default (config !! "vpc_cidr") "10.0.0.0/16".
Definition public_subnet_cidr : string :=
  or_default (config !! "public_subnet_cidr") "10.0.1.0/24".
Definition availability_zone : string :=
  or_default (config !! "availability_zone") "ap-southeast-1a".
Definition ubuntu_ami_id : string :=
  or_default (config !! "ami_id") "ami-060e277c0d4cce553".
Definition k3s_token : string :=
  or_default (config !! "k3s_token") "super-secret-token".

Definition vpc : Resource :=
  {| rname := "my-vpc";
     rargs := Vpc (Lit vpc_cidr) [("Name", "my-vpc")] |}.

Definition public_subnet : Resource :=
  {| rname := "public-subnet";
     rargs := Subnet (Out (attr vpc "id")) (Lit public_subnet_cidr)
                (Lit availability_zone) true [("Name", "public-subnet")] |}.

Definition igw : Resource :=
  {| rname := "internet-gateway";
     rargs := InternetGateway (Out (attr vpc "id")) [("Name", "igw")] |}.

Definition public_route_table : Resource :=
  {| rname := "public-route-table";
     rargs := RouteTable (Out (attr vpc "id")) [("Name", "rt-public")] |}.

Definition route : Resource :=
  {| rname := "igw-route";
     rargs := Route (Out (attr public_route_table "id")) (Lit "0.0.0.0/0")
                (Out (attr igw "id")) |}.

Definition route_table_association : Resource :=
  {| rname := "public-route-table-association";
     rargs := RouteTableAssociation (Out (attr public_subnet "id"))
                (Out (attr public_route_table "id")) |}.

Definition lb_security_group : Resource :=
  {| rname := "lb-secgrp";
     rargs := SecurityGroup (Out (attr vpc "id"))
       "Security group for nginx load balancer"
       [ Rule "tcp" 80 80 [Lit "0.0.0.0/0"];
         Rule "tcp" 443 443 [Lit "0.0.0.0/0"];
         Rule "tcp" 22 22 [Lit "0.0.0.0/0"] ]
       [ Rule "-1" 0 0 [Lit "0.0.0.0/0"] ]
       [("Name", "nginx-lb-sg")] |}.

Definition k3s_security_group : Resource :=
  {| rname := "k3s-secgrp";
     rargs := SecurityGroup (Out (attr vpc "id"))
       "Security group for K3s cluster nodes"
       [ Rule "tcp" 6443 6443 [Out (attr public_subnet "cidr_block")];
         Rule "udp" 8472 8472 [Out (attr public_subnet "cidr_block")];
         Rule "tcp" 22 22 [Lit "0.0.0.0/0"];
         Rule "tcp" 80 80 [Out (attr public_subnet "cidr_block")];
         Rule "tcp" 443 443 [Out (attr public_subnet "cidr_block")];
         Rule "-1" 0 0 [Out (attr public_subnet "cidr_block")] ]
       [ Rule "-1" 0 0 [Lit "0.0.0.0/0"] ]
       [("Name", "k3s-cluster-sg")] |}.

Definition master_instance : Resource :=
  {| rname := "master-instance";
     rargs := Instance "t3.small" [Out (attr k3s_security_group "id")]
       (Lit ubuntu_ami_id) (Out (attr public_subnet "id")) "k3sCluster" true
       (Lit (master_user_data k3s_token))
       [("Name", "k3s-master")] |}.

Definition worker_user_data : Output :=
  AllApply [(rname master_instance, "private_ip")] (worker_lambda k3s_token).

Definition worker1_instance : Resource :=
  {| rname := "worker1-instance";
     rargs := Instance "t3.small" [Out (attr k3s_security_group "id")]
       (Lit ubuntu_ami_id) (Out (attr public_subnet "id")) "k3sCluster" true
       (Out worker_user_data)
       [("Name", "k3s-worker1")] |}.

Definition worker2_instance : Resource :=
  {| rname := "worker2-instance";
     rargs := Instance "t3.small" [Out (attr k3s_security_group "id")]
       (Lit ubuntu_ami_id) (Out (attr public_subnet "id")) "k3sCluster" true
       (Out worker_user_data)
       [("Name", "k3s-worker2")] |}.

Definition nginx_user_data_final : Output :=
  AllApply [ (rname master_instance, "private_ip");
             (rname worker1_instance, "private_ip");
             (rname worker2_instance, "private_ip") ]
           (nginx_lambda nginx_user_data).

Definition nginx_instance : Resource :=
  {| rname := "nginx-instance";
     rargs := Instance "t2.micro" [Out (attr lb_security_group "id")]
       (Lit ubuntu_ami_id) (Out (attr public_subnet "id")) "nginx" true
       (Out nginx_user_data_final)
       [("Name", "nginx-lb")] |}.

(** Every resource the program registers, in the order it registers them. *)
Definition stack : list Resource :=
  [ vpc; public_subnet; igw; public_route_table; route;
    route_table_association; lb_security_group; k3s_security_group;
    master_instance; worker1_instance; worker2_instance; nginx_instance ].

(** The [pulumi.export] calls, in order. *)
Definition export_calls : list (string * Output) :=
  [ ("vpc_id", attr vpc "id");
    ("public_subnet_id", attr public_subnet "id");
    ("igw_id", attr igw "id");
    ("public_route_table_id", attr public_route_table "id");
    ("nginx_instance_id", attr nginx_instance "id");
    ("nginx_instance_ip", attr nginx_instance "public_ip");
    ("nginx_private_ip", attr nginx_instance "private_ip");
    ("master_instance_id", attr master_instance "id");
    ("master_instance_ip", attr master_instance "public_ip");
    ("master_private_ip", attr master_instance "private_ip");
    ("worker1_instance_id", attr worker1_instance "id");
    ("worker1_instance_ip", attr worker1_instance "public_ip");
    ("worker1_private_ip", attr worker1_instance "private_ip");
    ("worker2_instance_id", attr worker2_instance "id");
    ("worker2_instance_ip", attr worker2_instance "public_ip");
    ("worker2_private_ip", attr worker2_instance "private_ip") ].

(** The stack outputs: a later export of a key replaces an earlier one. *)
Definition exports : gmap string Output :=
  foldl (fun m kv => <[kv.1 := kv.2]> m) ∅ export_calls.

(** The worker instances: the program declares these two by hand. *)
Definition workers : list Resource := [worker1_instance; worker2_instance].

End Program.

(** ** Security-group rules *)

(** Whether an ingress rule lets a packet of protocol [proto] to [port]
    through: protocol ["-1"] stands for every protocol and port. *)
Definition rule_allows (r : rule) (proto : string) (port : Z) : bool :=
  String.eqb (protocol r) "-1"
  || (String.eqb (protocol r) proto
      && (from_port r <=? port)%Z && (port <=? to_port r)%Z).

Definition allows (rules : list rule) (proto : string) (port : Z) : bool :=
  existsb (fun r => rule_allows r proto port) rules.

(** The rule that opens SSH: TCP, port 22 only. *)
Definition is_ssh (r : rule) : bool :=
  String.eqb (protocol r) "tcp" && (from_port r =? 22)%Z && (to_port r =? 22)%Z.

(** Protocol and port range of a rule. *)
Definition rule_ports (r : rule) : string * Z * Z :=
  (protocol r, from_port r, to_port r).

(** The configuration keys the program reads. *)
Definition config_keys : list string :=
  ["vpc_cidr"; "public_subnet_cidr"; "availability_zone"; "ami_id"; "k3s_token"].

(** ** The provisioning engine *)

(** The engine that runs the program is the provider SDK, which is not part
    of [__main__.py]; this module models it from sections 3 to 5 of the
    specification. *)

Module Engine.

(** Modelled from the spec: the error taxonomy of section 7, as far as it
    concerns one node. *)
Inductive cause : Type :=
  | ProviderError (msg : string)
  | UpstreamFailure
  | TemplateError.

(** Modelled from the spec: the attributes returned by the creation
    collaborator of section 6. *)
Definition attrs : Type := string -> string.

(** Modelled from the spec: the terminal lifecycle states of a ResourceNode
    (section 3); a node absent from the state is Unstarted. *)
Inductive status : Type :=
  | Created (a : attrs)
  | Failed (c : cause).

Abbreviation state := (gmap string status).

(** Modelled from the spec: an output DeferredValue is Resolved once its
    owning node is Created (section 3), with the attribute's value. *)
Definition resolved (st : state) (r : ref) : option string :=
  match st !! r.1 with
  | Some (Created a) => Some (a r.2)
  | _ => None
  end.

(** Modelled from the spec: an output DeferredValue is Failed once its
    owning node is Failed (section 4.3). *)
Definition failed (st : state) (r : ref) : bool :=
  match st !! r.1 with
  | Some (Failed _) => true
  | _ => false
  end.

(** Modelled from the spec: [combineAll] and [map] of section 4.2; an
    [Output] has a value once all its sources are resolved and its function
    returns. *)
Definition eval (st : state) (o : Output) : option string :=
  vs ← mapM (resolved st) (sources o);
  compute o vs.

(** Modelled from the spec: an input is a literal or a DeferredValue
    (section 3). *)
Definition eval_input (st : state) (i : Input) : option string :=
  match i with
  | Lit s => Some s
  | Out o => eval st o
  end.

(** Modelled from the spec: the resolved inputs handed to the creation
    call (section 4.3). *)
Definition render (st : state) (r : Resource) : option (list string) :=
  mapM (eval_input st) (inputs (rargs r)).

(** Modelled from the spec: the two ways the Scheduler settles a node
    (section 4.3).  [Create n ans]: the creation call for [n] is issued and
    the provider answers [ans]; [Skip n]: [n] is marked failed without a
    call. *)
Inductive action : Type :=
  | Create (name : string) (answer : attrs + string)
  | Skip (name : string).

(** Modelled from the spec: success resolves the node's outputs, failure
    is a [ProviderError] (sections 4.3 and 7). *)
Definition settle (answer : attrs + string) : status :=
  match answer with
  | inl a => Created a
  | inr msg => Failed (ProviderError msg)
  end.

(** Modelled from the spec: the cloud resource collaborator of section 6,
    [create(resource, resolvedInputs)]. *)
Definition provider : Type := Resource -> list string -> attrs + string.

Section Scheduler.

Variable stack : list Resource.

(** The declared node of a given logical name. *)
Definition find_resource (n : string) : option Resource :=
  List.find (fun r => String.eqb (rname r) n) stack.

(** Modelled from the spec: the Scheduler of sections 4.3 and 5, which is
    the provider SDK's engine and not part of [__main__.py].  A node is
    settled once; its creation call is issued only when every input is
    resolved and rendered; a node with a failed input is never attempted
    and is marked [Failed UpstreamFailure]; a node whose inputs are resolved
    but do not render is marked [Failed TemplateError]. *)
Definition exec (st : state) (a : action) : option state :=
  match a with
  | Create n ans =>
      r ← find_resource n;
      match st !! n, render st r with
      | None, Some _ => Some (<[n := settle ans]> st)
      | _, _ => None
      end
  | Skip n =>
      r ← find_resource n;
      match st !! n with
      | Some _ => None
      | None =>
          if existsb (failed st) (depends_on r)
          then Some (<[n := Failed UpstreamFailure]> st)
          else match mapM (resolved st) (depends_on r), render st r with
               | Some _, None => Some (<[n := Failed TemplateError]> st)
               | _, _ => None
               end
      end
  end.

(** Modelled from the spec: a run of the Scheduler, its steps taken one
    after the other. *)
Fixpoint run (tr : list action) (st : state) : option state :=
  match tr with
  | [] => Some st
  | a :: tr' => st' ← exec st a; run tr' st'
  end.

(** Modelled from the spec: what the Scheduler does with a node when its
    turn comes (section 4.3). *)
Definition next_action (prov : provider) (st : state) (r : Resource) : action :=
  if existsb (failed st) (depends_on r) then Skip (rname r)
  else match render st r with
       | Some ins => Create (rname r) (prov r ins)
       | None => Skip (rname r)
       end.

(** Modelled from the spec: a node is ready for the next batch when every
    node its inputs refer to lies in an earlier batch (section 4.1). *)
Definition ready_after (placed : list string) (r : Resource) : bool :=
  forallb (fun d => existsb (String.eqb d.1) placed) (depends_on r).

(** Modelled from the spec: [topologicalBatches] of section 4.1.  Batch [k]
    holds exactly the nodes, not in an earlier batch, whose every dependency
    lies in batches [0..k-1], in declaration order; a node on a cycle is in
    no batch. *)
Fixpoint batches_from (fuel : nat) (placed : list string) (rest : list Resource)
  : list (list Resource) :=
  match fuel with
  | O => []
  | S fuel' =>
      let batch := List.filter (ready_after placed) rest in
      match batch with
      | [] => []
      | _ :: _ =>
          batch :: batches_from fuel' (placed ++ map rname batch)
                     (List.filter (fun r => negb (ready_after placed r)) rest)
      end
  end.

Definition topologicalBatches (nodes : list Resource) : list (list Resource) :=
  batches_from (length nodes) [] nodes.

(** Modelled from the spec: the Scheduler's turn at each node of a
    sequence, one after the other, leaving settled nodes alone. *)
Fixpoint schedule_seq (prov : provider) (todo : list Resource) (st : state)
  : list action :=
  match todo with
  | [] => []
  | r :: todo' =>
      match exec st (next_action prov st r) with
      | Some st' => next_action prov st r :: schedule_seq prov todo' st'
      | None => schedule_seq prov todo' st
      end
  end.

(** Modelled from the spec: the state such a sequence of turns ends in. *)
Fixpoint provision_seq (prov : provider) (todo : list Resource) (st : state)
  : state :=
  match todo with
  | [] => st
  | r :: todo' =>
      match exec st (next_action prov st r) with
      | Some st' => provision_seq prov todo' st'
      | None => provision_seq prov todo' st
      end
  end.

(** Modelled from the spec: one pass of the Scheduler of section 4.3 over
    [nodes]: it iterates [topologicalBatches], batch after batch; the nodes
    of one batch do not depend on each other and are taken here in
    declaration order. *)
Definition schedule (prov : provider) (nodes : list Resource) (st : state)
  : list action :=
  schedule_seq prov (concat (topologicalBatches nodes)) st.

(** Modelled from the spec: the state that pass ends in, the
    ProvisioningResult of section 4.3. *)
Definition provision (prov : provider) (nodes : list Resource) (st : state)
  : state :=
  provision_seq prov (concat (topologicalBatches nodes)) st.

(** Every node is declared once, after the nodes its inputs refer to. *)
Fixpoint well_ordered (seen : list string) (todo : list Resource) : bool :=
  match todo with
  | [] => true
  | r :: todo' =>
      negb (existsb (String.eqb (rname r)) seen)
      && forallb (fun d => existsb (String.eqb d.1) seen) (depends_on r)
      && well_ordered (rname r :: seen) todo'
  end.

End Scheduler.

(** Modelled from the spec: the exported attributes of section 6, the
    exports that resolved. *)
Definition stack_outputs (exports : gmap string Output) (st : state) : gmap string string :=
  omap (eval st) exports.

End Engine.

Import Engine.

(** ** The master's startup script at boot *)

Module Boot.

(** A line of the script that runs one thing at most: a line that runs
    nothing (the shebang, a comment, an empty line), a command, which a
    backslash at the end of a line continues on the next, or a sleep. *)
Inductive simple : Type :=
  | Text (line : string)
  | Exec (parts : list string)
  | Sleep (seconds : nat).

(** A command of the script: a simple one, or the loop
    [until probe; do body; done]. *)
Inductive cmd : Type :=
  | Do (s : simple)
  | Until (probe : string) (body : list simple).









(** The command a continued command amounts to: the shell drops each
    backslash with its line break. *)
Fixpoint joined (parts : list string) : string :=
  match parts with
  | [] => EmptyString
  | p :: parts' => p +:+ joined parts'
  end.

(** What a run of the script does, step by step. *)
Inductive event : Type :=
  | Ran (command : string)
  | Slept (seconds : nat)
  | Probed (probe : string) (ok : bool).

Definition run_simple (s : simple) : list event :=
  match s with
  | Text _ => []
  | Exec parts => [Ran (joined parts)]
  | Sleep n => [Slept n]
  end.

(** [until probe; do body; done]: [api k] tells whether the [k]-th probe
    of the run succeeds, [fuel] bounds the number of probes; the result is
    the trace and the number of the next probe. *)
Fixpoint until_loop (api : nat -> bool) (fuel k : nat) (probe : string)
    (body : list event) : option (list event * nat) :=
  match fuel with
  | O => None
  | S fuel' =>
      if api k then Some ([Probed probe true], S k)
      else match until_loop api fuel' (S k) probe body with
           | Some (rest, k') => Some (Probed probe false :: body ++ rest, k')
           | None => None
           end
  end.

(** A run of a script.  The script has no [set -e]: it goes on after a
    command that fails, so only a loop can hold it back. *)
Fixpoint interp (api : nat -> bool) (fuel k : nat) (cs : list cmd)
  : option (list event) :=
  match cs with
  | [] => Some []
  | Do s :: cs' =>
      match interp api fuel k cs' with
      | Some tr => Some (run_simple s ++ tr)
      | None => None
      end
  | Until probe body :: cs' =>
      match until_loop api fuel k probe (flat_map run_simple body) with
      | Some (w, k') =>
          match interp api fuel k' cs' with
          | Some tr => Some (w ++ tr)
          | None => None
          end
      | None => None
      end
  end.

Definition master_probe : string := "kubectl get nodes 2>/dev/null".

Definition master_echo : string :=
  "echo " +:+ dq +:+ "Waiting for K3s to start..." +:+ dq.

Definition copy_kubeconfig : string :=
  "cp /etc/rancher/k3s/k3s.yaml /home/ubuntu/k3s.yaml".

Definition chown_kubeconfig : string :=
  "chown ubuntu:ubuntu /home/ubuntu/k3s.yaml".

(** The script of lines 195-209 of [__main__.py], command by command. *)
Definition master_script (token : string) : list cmd :=
  [ Do (Text "#!/bin/bash");
    Do (Text "# Install K3s server");
    Do (Exec [ "curl -sfL https://get.k3s.io | K3S_TOKEN=" +:+ dq +:+ token
               +:+ dq +:+ " sh -s - server ";
               "  --cluster-init" ]);
    Do (Text "");
    Do (Text "# Wait for K3s to be ready");
    Until master_probe [Exec [master_echo]; Sleep 5];
    Do (Text "");
    Do (Text "# Get kubeconfig for external access");
    Do (Exec [copy_kubeconfig]);
    Do (Exec [chown_kubeconfig]) ].

(** The install command as the shell runs it. *)
Definition install_command (token : string) : string :=
  "curl -sfL https://get.k3s.io | K3S_TOKEN=" +:+ dq +:+ token +:+ dq
  +:+ " sh -s - server " +:+ "  --cluster-init".

(** Inside double quotes the shell gives a meaning of its own to the
    dollar sign, the backquote, the backslash and the double quote, and it
    drops a NUL: a word without them stands for itself. *)
Definition plain_char (c : ascii) : bool :=
  negb (Ascii.eqb c "$" || Ascii.eqb c "`" || Ascii.eqb c "092"
        || Ascii.eqb c "034" || Ascii.eqb c "000").

Fixpoint shell_safe (s : string) : bool :=
  match s with
  | EmptyString => true
  | String c s' => plain_char c && shell_safe s'
  end.

(** What became of a boot.  [Unread]: the secret holds a character the
    shell does not take as it is, so that what the shell reads is not
    [master_script]; what it does then is not modelled. *)
Inductive outcome : Type :=
  | Unread
  | Unfinished
  | Finished (tr : list event).

(** The boot of the master with a given join secret. *)
Definition master_boot (token : string) (api : nat -> bool) (fuel : nat)
  : outcome :=
  if shell_safe token then
    match interp api fuel 0 (master_script token) with
    | Some tr => Finished tr
    | None => Unfinished
    end
  else Unread.

(** One round of the master's loop whose probe failed. *)
Definition failed_round : list event :=
  [Probed master_probe false; Ran master_echo; Slept 5].

Fixpoint rounds (n : nat) : list event :=
  match n with
  | O => []
  | S n' => failed_round ++ rounds n'
  end.

End Boot.

(** ** The master beside the engine *)

Module Node.

(** Modelled from the spec: the creation call of section 6 is an opaque
    asynchronous call.  [call] holds the inputs of the master's creation
    call while it is issued and not yet answered; [probes] holds the results
    of the probes the master's script has made since the instance was
    launched. *)
Record world : Type := World {
  engine : state;
  call : option (list string);
  probes : option (list bool)
}.

(** Modelled from the spec: the engine issues the master's creation call,
    the provider answers it, the engine settles another node, or the
    master's script makes one more probe (sections 4.3, 4.5 and 7). *)
Inductive step : Type :=
  | Issue
  | Answer (ans : attrs + string)
  | Other (a : action)
  | Probe (ok : bool).

Definition initial : world :=
  {| engine := ∅; call := None; probes := None |}.

Section Master.

Variable stack : list Resource.
Variable master : Resource.

(** Modelled from the spec: one step of the engine, the provider or the
    node.  The instance is launched, and its script starts, when the call is
    issued; the script probes until a probe succeeds; the engine looks at
    its own state only. *)
Definition move (w : world) (s : step) : option world :=
  match s with
  | Issue =>
      match call w, engine w !! rname master, render (engine w) master with
      | None, None, Some ins =>
          Some {| engine := engine w; call := Some ins; probes := Some [] |}
      | _, _, _ => None
      end
  | Answer ans =>
      match call w with
      | Some _ =>
          st ← exec stack (engine w) (Create (rname master) ans);
          Some {| engine := st; call := None; probes := probes w |}
      | None => None
      end
  | Other a =>
      match a with
      | Create n _ =>
          if String.eqb n (rname master) then None
          else st ← exec stack (engine w) a;
               Some {| engine := st; call := call w; probes := probes w |}
      | Skip _ =>
          st ← exec stack (engine w) a;
          Some {| engine := st; call := call w; probes := probes w |}
      end
  | Probe ok =>
      match probes w with
      | Some l =>
          if existsb id l then None
          else Some {| engine := engine w; call := call w;
                       probes := Some (l ++ [ok]) |}
      | None => None
      end
  end.

Fixpoint moves (w : world) (ss : list step) : option world :=
  match ss with
  | [] => Some w
  | s :: ss' => w' ← move w s; moves w' ss'
  end.

(** The master's script has seen a probe succeed. *)
Definition ready (w : world) : bool :=
  match probes w with
  | Some l => existsb id l
  | None => false
  end.

(** The master's private address as the engine has it. *)
Definition published (w : world) : option string :=
  resolved (engine w) (rname master, "private_ip").

End Master.

End Node.

(** ** Sample providers, used to exhibit concrete runs *)

Definition sample_address (name : string) : string :=
  if String.eqb name "master-instance" then "10.0.1.10"
  else if String.eqb name "worker1-instance" then "10.0.1.11"
  else if String.eqb name "worker2-instance" then "10.0.1.12"
  else "10.0.1.20".

Definition sample_attrs (name : string) : attrs :=
  fun a => if String.eqb a "private_ip" then sample_address name
           else name +:+ "." +:+ a.

(** A provider that creates everything. *)
Definition sample_provider : provider :=
  fun r _ => inl (sample_attrs (rname r)).



(** The run of the engine over the default configuration when every
    creation succeeds, and when the master instance is refused. *)
Definition sample_run : list action :=
  schedule (stack ∅) sample_provider (stack ∅) ∅.

Definition sample_final : state :=
  provision (stack ∅) sample_provider (stack ∅) ∅.




(** ** Further readings of the declarations *)

Definition egress_of (r : Resource) : list rule :=
  match rargs r with
  | SecurityGroup _ _ _ eg _ => eg
  | _ => []
  end.

(** Whether a rule lets through a packet of protocol [proto] to [port]
    whose source lies in one of the rule's blocks; [in_block] tells in
    which blocks the source lies. *)
Definition rule_lets (in_block : Input -> bool) (r : rule)
    (proto : string) (port : Z) : bool :=
  rule_allows r proto port && existsb in_block (cidr_blocks r).

Definition lets (in_block : Input -> bool) (rules : list rule)
    (proto : string) (port : Z) : bool :=
  existsb (fun r => rule_lets in_block r proto port) rules.

(** A source outside the subnet: it lies in the literal blocks only. *)
Definition from_outside (i : Input) : bool :=
  match i with
  | Lit _ => true
  | Out _ => false
  end.

(** The resource named by an argument of the form [r.id]. *)
Definition id_of (i : Input) : option string :=
  match i with
  | Out (Attr n a) => if String.eqb a "id" then Some n else None
  | _ => None
  end.

Definition subnet_of (r : Resource) : option Input :=
  match rargs r with
  | Instance _ _ _ sn _ _ _ _ => Some sn
  | _ => None
  end.

Definition public_ip_of (r : Resource) : bool :=
  match rargs r with
  | Instance _ _ _ _ _ p _ _ => p
  | _ => false
  end.

(** The route table associated with a subnet. *)
Definition route_table_of (stack : list Resource) (sn : string) : option string :=
  head (omap (fun r =>
    match rargs r with
    | RouteTableAssociation s t =>
        if bool_decide (id_of s = Some sn) then id_of t else None
    | _ => None
    end) stack).

(** The gateway of the default route of a route table. *)
Definition default_gateway_of (stack : list Resource) (rt : string) : option string :=
  head (omap (fun r =>
    match rargs r with
    | Route t (Lit d) g =>
        if bool_decide (id_of t = Some rt) && String.eqb d "0.0.0.0/0"
        then id_of g else None
    | _ => None
    end) stack).

(** The VPC a subnet, gateway or route table belongs to. *)
Definition vpc_of (stack : list Resource) (n : string) : option string :=
  r ← find_resource stack n;
  match rargs r with
  | Subnet v _ _ _ _ => id_of v
  | InternetGateway v _ => id_of v
  | RouteTable v _ => id_of v
  | _ => None
  end.

Definition is_internet_gateway (stack : list Resource) (n : string) : bool :=
  match rargs <$> find_resource stack n with
  | Some (InternetGateway _ _) => true
  | _ => false
  end.

Definition maps_public_ip (stack : list Resource) (n : string) : bool :=
  match rargs <$> find_resource stack n with
  | Some (Subnet _ _ _ p _) => p
  | _ => false
  end.

(** An instance has a way out: it asks for a public address, its subnet
    hands out public addresses and is associated with a route table whose
    default route goes to an internet gateway, all in one VPC. *)
Definition reaches_internet (stack : list Resource) (r : Resource) : bool :=
  match subnet_of r ≫= id_of with
  | None => false
  | Some sn =>
      match route_table_of stack sn with
      | None => false
      | Some rt =>
          match default_gateway_of stack rt with
          | None => false
          | Some g =>
              public_ip_of r && maps_public_ip stack sn
              && is_internet_gateway stack g
              && bool_decide (is_Some (vpc_of stack sn))
              && bool_decide (vpc_of stack g = vpc_of stack sn)
              && bool_decide (vpc_of stack rt = vpc_of stack sn)
          end
      end
  end.

(** The declarations other than those of the given names. *)
Definition others (names : list string) (stack : list Resource) : list Resource :=
  List.filter (fun r => negb (existsb (String.eqb (rname r)) names)) stack.

(** The seconds a boot trace spends sleeping. *)
Fixpoint slept (tr : list Boot.event) : nat :=
  match tr with
  | [] => 0
  | Boot.Slept s :: tr' => s + slept tr'
  | _ :: tr' => slept tr'
  end.

(** A provider that creates everything, with attributes of its choice. *)
Definition always (f : Resource -> list string -> attrs) : provider :=
  fun r ins => inl (f r ins).

(** A provider that refuses the node of one name and creates the others. *)
Definition refusing (n msg : string) (f : Resource -> list string -> attrs)
  : provider :=
  fun r ins => if String.eqb (rname r) n then inr msg else inl (f r ins).

(** The line feed. *)
Definition lf : string := String "010"%char EmptyString.

(** The node an action settles. *)
Definition action_name (a : action) : string :=
  match a with
  | Create n _ => n
  | Skip n => n
  end.

(** A creation call that the provider answered with attributes. *)
Definition is_created_call (a : action) : bool :=
  match a with
  | Create _ (inl _) => true
  | _ => false
  end.

Definition created (st : state) (n : string) : bool :=
  match st !! n with
  | Some (Created _) => true
  | _ => false
  end.

Definition is_skip (a : action) : bool :=
  match a with
  | Skip _ => true
  | Create _ _ => false
  end.

(** * Properties *)

(** ** String operations *)

Example replace_basic : Py.replace "ab" "X" "cababab!" = "cXXX!".
Proof. reflexivity. Qed.

Example replace_overlap : Py.replace "aa" "b" "aaaaa" = "bba".
Proof. reflexivity. Qed.

Example replace_empty_pattern : Py.replace "" "-" "abc" = "-a-b-c-".
Proof. reflexivity. Qed.

Example contains_basic :
  Py.contains "bc" "abcd" = true /\ Py.contains "bd" "abcd" = false.
Proof. split; reflexivity. Qed.

Section PyFacts.

Import Py.

Lemma app_cons c (s t : string) : String c s +:+ t = String c (s +:+ t).
Proof. reflexivity. Qed.

Lemma app_nil (t : string) : "" +:+ t = t.
Proof. reflexivity. Qed.

Lemma startswith_nil s : startswith "" s = true.
Proof. by destruct s. Qed.

Lemma startswith_cons c old d s :
  startswith (String c old) (String d s) = true <-> c = d /\ startswith old s = true.
Proof.
  unfold startswith; simpl.
  destruct (Ascii.ascii_dec c d) as [->|Hne]; split; intros H;
    try tauto; try discriminate.
Qed.

Lemma contains_nil old : contains old "" = startswith old "".
Proof. reflexivity. Qed.

Lemma contains_cons old c s :
  contains old (String c s) = startswith old (String c s) || contains old s.
Proof. reflexivity. Qed.

Lemma replace_from_miss old new c s :
  startswith old (String c s) = false ->
  replace_from old new 0 (String c s) = String c (replace_from old new 0 s).
Proof.
  intros H.
  change (replace_from old new 0 (String c s))
    with (if startswith old (String c s)
          then new +:+ replace_from old new (String.length old - 1) s
          else String c (replace_from old new 0 s)).
  by rewrite H.
Qed.

Lemma startswith_app old s : startswith old (old +:+ s) = true.
Proof.
  induction old as [|c old IH]; [apply startswith_nil|].
  apply startswith_cons; auto.
Qed.

Lemma startswith_spec old s :
  startswith old s = true <-> exists r, s = old +:+ r.
Proof.
  split.
  - revert s; induction old as [|c old IH]; intros s H; [by exists s|].
    destruct s as [|d s]; [discriminate|].
    apply startswith_cons in H as [-> H].
    destruct (IH _ H) as [r ->]. by exists r.
  - intros [r ->]. apply startswith_app.
Qed.

Lemma app_assoc_s (a b c : string) : (a +:+ b) +:+ c = a +:+ (b +:+ c).
Proof. induction a as [|x a IH]; [done | by rewrite !app_cons, IH]. Qed.

(** [contains] is the substring relation. *)
Lemma contains_spec old s :
  contains old s = true <-> exists l r, s = l +:+ old +:+ r.
Proof.
  split.
  - induction s as [|c s IH]; [rewrite contains_nil | rewrite contains_cons].
    + intros H. apply startswith_spec in H as [r ->]. by exists "", r.
    + intros [H|H]%orb_true_iff.
      * apply startswith_spec in H as [r ->]. by exists "", r.
      * destruct (IH H) as (l & r & ->). by exists (String c l), r.
  - intros (l & r & ->). induction l as [|c l IH].
    + rewrite app_nil. destruct (old +:+ r) as [|c s] eqn:E.
      * rewrite contains_nil, <- E. apply startswith_app.
      * rewrite contains_cons, <- E, startswith_app. done.
    + rewrite app_cons, contains_cons, IH. apply orb_true_r.
Qed.

Lemma mem_last_char s c : last_char s = Some c -> mem c s = true.
Proof.
  induction s as [|d s IH]; [discriminate|]. simpl.
  destruct s as [|e s].
  - intros [= ->]. by rewrite Ascii.eqb_refl.
  - intros H. rewrite (IH H). apply orb_true_r.
Qed.

(** An occurrence of [old] that begins in [x] either lies in [x], or uses
    up [x] and goes on into [b]. *)
Lemma startswith_app_inv old x b :
  startswith old (x +:+ b) = true ->
  startswith old x = true
  \/ ((forall c, mem c x = true -> mem c old = true)
      /\ exists c b', b = String c b' /\ mem c old = true).
Proof.
  revert x; induction old as [|o old IH]; intros x H.
  { left. apply startswith_nil. }
  destruct x as [|y x].
  - right. split; [discriminate|].
    simpl in H. destruct b as [|c b']; [discriminate|].
    apply startswith_cons in H as [-> _].
    exists c, b'. split; [done|]. simpl. by rewrite Ascii.eqb_refl.
  - simpl in H. apply startswith_cons in H as [-> H].
    destruct (IH _ H) as [Hx | [Hall (c & b' & -> & Hc)]].
    + left. by apply startswith_cons.
    + right. split.
      * intros c'. simpl. intros [Hc'|Hc']%orb_true_iff.
        -- by rewrite Hc'.
        -- rewrite (Hall _ Hc'). apply orb_true_r.
      * exists c, b'. split; [done|]. simpl. rewrite Hc. apply orb_true_r.
Qed.

(** Nothing starts inside [a] when [a] holds no occurrence and ends with
    a character foreign to [old]. *)
Lemma clear_by_last old a b c :
  contains old a = false -> last_char a = Some c -> mem c old = false ->
  clear old a b.
Proof.
  induction a as [|d a IH]; [done|].
  intros Hc Hl Hm. rewrite contains_cons in Hc.
  apply orb_false_iff in Hc as [Hp Hc].
  split.
  - destruct (startswith old (String d a +:+ b)) eqn:E; [|done].
    apply startswith_app_inv in E as [E | [Hall _]]; [congruence|].
    rewrite (Hall c (mem_last_char _ _ Hl)) in Hm. discriminate.
  - destruct a as [|e a]; [done|]. by apply IH.
Qed.

(** Nothing starts inside [a] when [a] holds no occurrence and what
    follows begins with a character foreign to [old]. *)
Lemma clear_by_next old a c b :
  contains old a = false -> mem c old = false ->
  clear old a (String c b).
Proof.
  induction a as [|d a IH]; [done|].
  intros Hc Hm. rewrite contains_cons in Hc.
  apply orb_false_iff in Hc as [Hp Hc].
  split; [|by apply IH].
  destruct (startswith old (String d a +:+ String c b)) eqn:E; [|done].
  apply startswith_app_inv in E as [E | [_ (c' & b' & [= <- <-] & Hc')]]; congruence.
Qed.

Lemma replace_from_clear old new a b :
  clear old a b ->
  replace_from old new 0 (a +:+ b) = a +:+ replace_from old new 0 b.
Proof.
  induction a as [|d a IH]; [done|].
  intros [Hp Hc]. rewrite !app_cons in *.
  by rewrite (replace_from_miss _ _ _ _ Hp), IH.
Qed.

Lemma contains_clear old a b :
  clear old a b -> contains old (a +:+ b) = contains old b.
Proof.
  induction a as [|d a IH]; [done|].
  intros [Hp Hc]. rewrite !app_cons in *.
  by rewrite contains_cons, Hp, IH.
Qed.

(** Replacing a text that holds no occurrence changes nothing. *)
Lemma replace_from_absent old new s :
  contains old s = false -> replace_from old new 0 s = s.
Proof.
  induction s as [|c s IH]; [done|].
  rewrite contains_cons. intros [Hp Hc]%orb_false_iff.
  by rewrite (replace_from_miss _ _ _ _ Hp), IH.
Qed.

Lemma replace_absent old new s :
  old <> "" -> contains old s = false -> replace old new s = s.
Proof.
  destruct old; [done|]. intros _. apply replace_from_absent.
Qed.

(** An occurrence of [old] brings every character of [old] with it. *)
Lemma contains_mem old s c :
  contains old s = true -> mem c old = true -> mem c s = true.
Proof.
  intros (l & r & ->)%contains_spec Hc.
  induction l as [|d l IH].
  - rewrite app_nil. induction old as [|o old IH]; [discriminate|].
    rewrite app_cons. simpl in *.
    apply orb_true_iff in Hc as [->|Hc]; [done|].
    rewrite (IH Hc). apply orb_true_r.
  - rewrite app_cons. simpl. rewrite IH. apply orb_true_r.
Qed.

End PyFacts.

(** ** The load-balancer template *)

Section Template.

Import Py.

Lemma nginx_user_data_segments :
  nginx_user_data
  = seg_head +:+ MASTER_PRIVATE_IP +:+ seg_mid +:+ WORKER1_PRIVATE_IP
    +:+ seg_mid +:+ WORKER2_PRIVATE_IP +:+ seg_tail.
Proof. vm_compute. reflexivity. Qed.

Lemma backend_config_segments m w1 w2 :
  backend_config m w1 w2
  = seg_head +:+ m +:+ seg_mid +:+ w1 +:+ seg_mid +:+ w2 +:+ seg_tail.
Proof.
  unfold backend_config, seg_head, seg_mid, seg_tail, unlines.
  rewrite !app_assoc_s. reflexivity.
Qed.

Lemma token_free_spec s :
  token_free s = true <->
  contains MASTER_PRIVATE_IP s = false
  /\ contains WORKER1_PRIVATE_IP s = false
  /\ contains WORKER2_PRIVATE_IP s = false.
Proof.
  unfold token_free.
  rewrite !andb_true_iff, !negb_true_iff. tauto.
Qed.

(** A token cannot begin in [seg_head] or [seg_mid] and run into what follows:
    both end with a blank. *)
Lemma clear_seg old seg b :
  contains old seg = false -> last_char seg = Some " "%char ->
  mem " " old = false -> clear old seg b.
Proof. intros. by eapply clear_by_last. Qed.

(** A token cannot begin in an address and run into what follows it: the
    next character is a colon. *)
Lemma clear_addr old a b :
  contains old a = false ->
  (exists b', b = String ":" b') -> mem ":" old = false ->
  clear old a b.
Proof. intros Ha [b' ->] Hm. by apply clear_by_next. Qed.

End Template.

Section Rendering.

Import Py.

Lemma replace_token old new s :
  old <> "" -> replace old new s = replace_from old new 0 s.
Proof. by destruct old. Qed.

Ltac seg_clear := apply clear_seg; vm_compute; reflexivity.
Ltac addr_clear :=
  apply clear_addr; [assumption | eexists; reflexivity | reflexivity].

(** On addresses that hold no later token, the three replacements fill
    the three holes and touch nothing else. *)
Lemma replace_chain_fills m w1 w2 :
  contains WORKER1_PRIVATE_IP m = false ->
  contains WORKER2_PRIVATE_IP m = false ->
  contains WORKER2_PRIVATE_IP w1 = false ->
  replace WORKER2_PRIVATE_IP w2
    (replace WORKER1_PRIVATE_IP w1
      (replace MASTER_PRIVATE_IP m nginx_user_data))
  = backend_config m w1 w2.
Proof.
  intros Hm1 Hm2 Hw.
  rewrite backend_config_segments.
  assert (replace MASTER_PRIVATE_IP m nginx_user_data
          = seg_head +:+ m +:+ seg_mid +:+ WORKER1_PRIVATE_IP
            +:+ seg_mid +:+ WORKER2_PRIVATE_IP +:+ seg_tail) as ->
    by (vm_compute; reflexivity).
  rewrite !replace_token by discriminate.
  rewrite (replace_from_clear WORKER1_PRIVATE_IP w1 seg_head) by seg_clear.
  rewrite (replace_from_clear WORKER1_PRIVATE_IP w1 m) by addr_clear.
  assert (replace_from WORKER1_PRIVATE_IP w1 0
            (seg_mid +:+ WORKER1_PRIVATE_IP +:+ seg_mid
             +:+ WORKER2_PRIVATE_IP +:+ seg_tail)
          = seg_mid +:+ w1 +:+ seg_mid +:+ WORKER2_PRIVATE_IP +:+ seg_tail) as ->
    by (vm_compute; reflexivity).
  rewrite (replace_from_clear WORKER2_PRIVATE_IP w2 seg_head) by seg_clear.
  rewrite (replace_from_clear WORKER2_PRIVATE_IP w2 m) by addr_clear.
  rewrite (replace_from_clear WORKER2_PRIVATE_IP w2 seg_mid) by seg_clear.
  rewrite (replace_from_clear WORKER2_PRIVATE_IP w2 w1) by addr_clear.
  assert (replace_from WORKER2_PRIVATE_IP w2 0
            (seg_mid +:+ WORKER2_PRIVATE_IP +:+ seg_tail)
          = seg_mid +:+ w2 +:+ seg_tail) as ->
    by (vm_compute; reflexivity).
  reflexivity.
Qed.

(** No token survives in the filled script when the addresses hold none. *)
Lemma backend_config_token_free old m w1 w2 :
  contains old seg_head = false -> contains old seg_mid = false ->
  contains old seg_tail = false ->
  mem " " old = false -> mem ":" old = false ->
  contains old m = false -> contains old w1 = false -> contains old w2 = false ->
  contains old (backend_config m w1 w2) = false.
Proof.
  intros Hh Hd Ht Hs Hc Hm H1 H2.
  rewrite backend_config_segments.
  rewrite (contains_clear old seg_head) by (by apply clear_seg).
  rewrite (contains_clear old m)
    by (apply clear_addr; [done | by eexists | done]).
  rewrite (contains_clear old seg_mid) by (by apply clear_seg).
  rewrite (contains_clear old w1)
    by (apply clear_addr; [done | by eexists | done]).
  rewrite (contains_clear old seg_mid) by (by apply clear_seg).
  rewrite (contains_clear old w2)
    by (apply clear_addr; [done | by eexists | done]).
  done.
Qed.

End Rendering.

Section BackendLines.

Import Py.

Ltac backend_line l r :=
  apply contains_spec; rewrite backend_config_segments;
  exists l, r; rewrite ?app_assoc_s; vm_compute; reflexivity.

Lemma backend_line_master m w1 w2 :
  contains ("server " +:+ m +:+ ":6443;") (backend_config m w1 w2) = true.
Proof.
  backend_line
    (String.substring 0 (String.length seg_head - 7) seg_head)
    (String.substring 6 (String.length seg_mid) seg_mid
     +:+ w1 +:+ seg_mid +:+ w2 +:+ seg_tail).
Qed.

Lemma backend_line_worker1 m w1 w2 :
  contains ("server " +:+ w1 +:+ ":6443;") (backend_config m w1 w2) = true.
Proof.
  backend_line
    (seg_head +:+ m +:+ String.substring 0 (String.length seg_mid - 7) seg_mid)
    (String.substring 6 (String.length seg_mid) seg_mid +:+ w2 +:+ seg_tail).
Qed.

Lemma backend_line_worker2 m w1 w2 :
  contains ("server " +:+ w2 +:+ ":6443;") (backend_config m w1 w2) = true.
Proof.
  backend_line
    (seg_head +:+ m +:+ seg_mid +:+ w1
     +:+ String.substring 0 (String.length seg_mid - 7) seg_mid)
    (String.substring 6 (String.length seg_tail) seg_tail).
Qed.

End BackendLines.

(** ** Addresses and the replace chain *)

Section Filling.

Import Py.

Lemma dotted_decimal_no_underscore s :
  dotted_decimal s = true -> mem "_" s = false.
Proof.
  induction s as [|c s IH]; [done|]. simpl.
  intros [Hc Hs]%andb_true_iff. rewrite (IH Hs), orb_false_r.
  destruct (Ascii.eqb "_" c) eqn:E; [|done].
  apply Ascii.eqb_eq in E as <-. discriminate.
Qed.

(** Dotted-decimal addresses hold no placeholder token. *)
Lemma dotted_decimal_token_free s :
  dotted_decimal s = true -> token_free s = true.
Proof.
  intros H%dotted_decimal_no_underscore.
  apply token_free_spec.
  repeat split;
    (match goal with |- contains ?t s = false =>
       destruct (contains t s) eqn:E; [|done];
       by rewrite (contains_mem t s "_" E eq_refl) in H
     end).
Qed.

Lemma nginx_lambda_three template m w1 w2 :
  nginx_lambda template [m; w1; w2]
  = Some (replace WORKER2_PRIVATE_IP w2
           (replace WORKER1_PRIVATE_IP w1
             (replace MASTER_PRIVATE_IP m template))).
Proof. reflexivity. Qed.


(** On strings that hold none of the three tokens, the chain over the
    program's template writes the three backend lines and leaves no
    token. *)
Lemma nginx_lambda_fills_token_free m w1 w2 :
  token_free m = true -> token_free w1 = true -> token_free w2 = true ->
  nginx_lambda nginx_user_data [m; w1; w2] = Some (backend_config m w1 w2)
  /\ contains ("server " +:+ m +:+ ":6443;") (backend_config m w1 w2) = true
  /\ contains ("server " +:+ w1 +:+ ":6443;") (backend_config m w1 w2) = true
  /\ contains ("server " +:+ w2 +:+ ":6443;") (backend_config m w1 w2) = true
  /\ contains MASTER_PRIVATE_IP (backend_config m w1 w2) = false
  /\ contains WORKER1_PRIVATE_IP (backend_config m w1 w2) = false
  /\ contains WORKER2_PRIVATE_IP (backend_config m w1 w2) = false.
Proof.
  intros (Hm0 & Hm1 & Hm2)%token_free_spec (H10 & H11 & H12)%token_free_spec
         (H20 & H21 & H22)%token_free_spec.
  split.
  { rewrite nginx_lambda_three. f_equal. by apply replace_chain_fills. }
  split; [apply backend_line_master|].
  split; [apply backend_line_worker1|].
  split; [apply backend_line_worker2|].
  split; [by apply backend_config_token_free|].
  split; by apply backend_config_token_free.
Qed.


End Filling.

(** ** The engine *)

Section EngineFacts.

Variable stack : list Resource.

(** A step settles one node that was unstarted, and nothing else. *)
Lemma exec_settles st a st' :
  exec stack st a = Some st' ->
  exists n x, st !! n = None /\ st' = <[n := x]> st
    /\ ((a = Skip n /\ exists c, x = Failed c)
        \/ exists ans, a = Create n ans /\ x = settle ans).
Proof.
  destruct a as [n ans|n]; simpl; intros H.
  - destruct (find_resource stack n) as [r|]; [simpl in H|done].
    destruct (st !! n) eqn:E; [done|].
    destruct (render st r); [|done].
    injection H as <-. exists n, (settle ans).
    split; [done|]. split; [done|]. right. by exists ans.
  - destruct (find_resource stack n) as [r|]; [simpl in H|done].
    destruct (st !! n) eqn:E; [done|].
    destruct (existsb _ _).
    { injection H as <-. exists n, (Failed UpstreamFailure). eauto 6. }
    destruct (mapM _ _); [|done]. destruct (render st r); [done|].
    injection H as <-. exists n, (Failed TemplateError). eauto 6.
Qed.



Lemma run_app tr1 tr2 st :
  run stack (tr1 ++ tr2) st = run stack tr1 st ≫= run stack tr2.
Proof.
  revert st; induction tr1 as [|a tr1 IH]; simpl; intros st; [done|].
  destruct (exec stack st a); simpl; [apply IH|done].
Qed.

(** A run through a given action passes through the states around it. *)
Lemma run_split pre a post st st' :
  run stack (pre ++ a :: post) st = Some st' ->
  exists s0 s1, run stack pre st = Some s0 /\ exec stack s0 a = Some s1
    /\ run stack post s1 = Some st'.
Proof.
  rewrite run_app. destruct (run stack pre st) as [s0|]; [simpl|done].
  destruct (exec stack s0 a) as [s1|] eqn:E; [simpl|done]. eauto.
Qed.

(** A node is Created only by a creation call that the provider answered. *)
Lemma created_by_call tr st st' n a :
  run stack tr st = Some st' -> st' !! n = Some (Created a) ->
  st !! n = Some (Created a) \/ In (Create n (inl a)) tr.
Proof.
  revert st; induction tr as [|act tr IH]; simpl; intros st H Hn.
  - injection H as <-. by left.
  - destruct (exec stack st act) as [st1|] eqn:E; [simpl in H|done].
    destruct (IH _ H Hn) as [H1|H1]; [|by auto].
    destruct (exec_settles _ _ _ E) as (m & y & Hm & -> & Ha).
    destruct (decide (m = n)) as [->|Hne].
    + rewrite lookup_insert_eq in H1. injection H1 as ->.
      destruct Ha as [[_ [c ?]]|(ans & -> & Hs)]; [done|].
      destruct ans as [a'|msg]; [|done]. injection Hs as ->. auto.
    + rewrite lookup_insert_ne in H1 by done. by left.
Qed.

(** The creation call of a node is issued only in a state in which every
    attribute its arguments wait for is resolved. *)
Lemma create_needs_sources st n ans st' r d :
  exec stack st (Create n ans) = Some st' ->
  find_resource stack n = Some r ->
  In d (depends_on r) -> is_Some (resolved st d).
Proof.
  simpl. intros H Hr Hd. rewrite Hr in H. simpl in H.
  destruct (st !! n); [done|].
  destruct (render st r) as [ins|] eqn:E; [|done].
  unfold render in E.
  assert (is_Some (mapM (eval_input st) (inputs (rargs r)))) as Hs by eauto.
  rewrite mapM_is_Some, Forall_forall in Hs.
  unfold depends_on in Hd. apply in_flat_map in Hd as (i & Hi & Hd).
  apply list_elem_of_In in Hi. specialize (Hs i Hi). simpl in Hs.
  destruct i as [s|o]; [done|]. simpl in *.
  unfold eval in Hs. destruct Hs as [v Hv].
  destruct (mapM (resolved st) (sources o)) as [vs|] eqn:Ev; [|done].
  assert (is_Some (mapM (resolved st) (sources o))) as Hs' by eauto.
  rewrite mapM_is_Some, Forall_forall in Hs'.
  apply Hs', list_elem_of_In, Hd.
Qed.

End EngineFacts.

(** An [Output] whose sources are resolved has the value its function
    computes from them. *)
Lemma eval_resolved st o vs :
  Forall2 (fun d v => resolved st d = Some v) (sources o) vs ->
  eval st o = compute o vs.
Proof. intros H. unfold eval. by rewrite (mapM_Some_2 _ _ _ H). Qed.

Section Progress.

Variable stack : list Resource.
Variable prov : provider.

Lemma schedule_seq_run todo st :
  run stack (schedule_seq stack prov todo st) st
  = Some (provision_seq stack prov todo st).
Proof.
  revert st; induction todo as [|r todo IH]; simpl; intros st; [done|].
  destruct (exec stack st (next_action prov st r)) as [st1|] eqn:E; simpl.
  - rewrite E. simpl. apply IH.
  - apply IH.
Qed.

Lemma schedule_run todo st :
  run stack (schedule stack prov todo st) st = Some (provision stack prov todo st).
Proof. apply schedule_seq_run. Qed.




Lemma well_ordered_fresh seen l r :
  well_ordered seen l = true -> In r l ->
  existsb (String.eqb (rname r)) seen = false.
Proof.
  revert seen; induction l as [|x l IH]; simpl; intros seen H Hr; [done|].
  apply andb_true_iff in H as [[Hx _]%andb_true_iff Hl].
  destruct Hr as [->|Hr]; [by apply negb_true_iff|].
  specialize (IH _ Hl Hr). simpl in IH. by apply orb_false_iff in IH as [_ ?].
Qed.

Lemma find_self seen l r :
  well_ordered seen l = true -> In r l ->
  List.find (fun x => String.eqb (rname x) (rname r)) l = Some r.
Proof.
  revert seen; induction l as [|x l IH]; simpl; intros seen H Hr; [done|].
  apply andb_true_iff in H as [_ Hl].
  destruct Hr as [->|Hr]; [by rewrite String.eqb_refl|].
  pose proof (well_ordered_fresh _ _ _ Hl Hr) as Hf. simpl in Hf.
  apply orb_false_iff in Hf as [Hf _].
  rewrite String.eqb_sym, Hf. eauto.
Qed.





End Progress.

(** ** The dependency structure of the program *)

Section Dependencies.

Variable stack : list Resource.


(** A call that was issued found every source of its node resolved, and
    each of them by an earlier, successful creation call. *)
Lemma call_after_sources pre n ans post st r d :
  run stack (pre ++ Create n ans :: post) ∅ = Some st ->
  find_resource stack n = Some r -> In d (depends_on r) ->
  exists s0 a, run stack pre ∅ = Some s0
    /\ In (Create d.1 (inl a)) pre
    /\ s0 !! d.1 = Some (Created a)
    /\ resolved s0 d = Some (a d.2).
Proof.
  intros (s0 & s1 & H0 & H1 & _)%run_split Hr Hd.
  destruct (create_needs_sources _ _ _ _ _ _ d H1 Hr Hd) as [v Hv].
  unfold resolved in *.
  destruct (s0 !! d.1) as [[a|c]|] eqn:E; try done.
  exists s0, a. split; [done|]. split; [|by rewrite E].
  destruct (created_by_call _ _ _ _ _ a H0 E) as [Hc|Hc]; [|done].
  by rewrite lookup_empty in Hc.
Qed.


End Dependencies.

(** ** Ordering of the cluster bootstrap *)

Section Bootstrap.

Variable cfg : gmap string string.

Lemma stack_well_ordered : well_ordered [] (stack cfg) = true.
Proof. vm_compute. reflexivity. Qed.

Lemma find_declared r :
  In r (stack cfg) -> find_resource (stack cfg) (rname r) = Some r.
Proof. apply (find_self []), stack_well_ordered. Qed.





End Bootstrap.

Section BootstrapClaims.

(** The f-string of the worker lambda, written out. *)
Lemma worker_script_text tok ip :
  worker_script tok ip
  = "#!/bin/bash" +:+ lf +:+ "# Install K3s agent" +:+ lf
    +:+ "curl -sfL https://get.k3s.io | K3S_TOKEN=" +:+ dq +:+ tok +:+ dq
    +:+ " K3S_URL=https://" +:+ ip +:+ ":6443 sh -s -" +:+ lf.
Proof. unfold worker_script, Py.unlines. rewrite ?app_assoc_s. reflexivity. Qed.

(** C1. Each worker's join script is [worker_user_data]: one [Output.all]
    over the master's private address alone, applied to a lambda that fills
    the f-string with the join token, a plain string, and that address:
    the script reads [K3S_TOKEN="<token>" K3S_URL=https://<address>:6443].
    In every run, the creation call of a worker comes after the successful
    creation call of the master, which resolved that address, and the script
    handed to the call is that text at the token and that address. *)
Theorem worker_call_follows_master_address
    (cfg : gmap string string) w pre ans post st :
  In w (workers cfg) ->
  run (stack cfg) (pre ++ Create (rname w) ans :: post) ∅ = Some st ->
  user_data_of w
    = Some (Out (AllApply [(rname (master_instance cfg), "private_ip")]
                          (worker_lambda (k3s_token cfg))))
  /\ (forall ip,
        worker_lambda (k3s_token cfg) [ip]
        = Some ("#!/bin/bash" +:+ lf +:+ "# Install K3s agent" +:+ lf
                +:+ "curl -sfL https://get.k3s.io | K3S_TOKEN="
                +:+ dq +:+ k3s_token cfg +:+ dq
                +:+ " K3S_URL=https://" +:+ ip +:+ ":6443 sh -s -" +:+ lf))
  /\ exists s0 a,
       run (stack cfg) pre ∅ = Some s0
       /\ In (Create (rname (master_instance cfg)) (inl a)) pre
       /\ resolved s0 (rname (master_instance cfg), "private_ip")
          = Some (a "private_ip")
       /\ eval_input s0 (Out (worker_user_data cfg))
          = Some ("#!/bin/bash" +:+ lf +:+ "# Install K3s agent" +:+ lf
                  +:+ "curl -sfL https://get.k3s.io | K3S_TOKEN="
                  +:+ dq +:+ k3s_token cfg +:+ dq
                  +:+ " K3S_URL=https://" +:+ a "private_ip"
                  +:+ ":6443 sh -s -" +:+ lf).
Proof.
  intros Hw Hrun.
  assert (In w (stack cfg)) as Hin.
  { simpl in Hw. destruct Hw as [<-|[<-|[]]]; simpl; auto 12. }
  assert (user_data_of w = Some (Out (worker_user_data cfg))) as Hud.
  { simpl in Hw. by destruct Hw as [<-|[<-|[]]]. }
  assert (In (rname (master_instance cfg), "private_ip") (depends_on w)) as Hd.
  { simpl in Hw. destruct Hw as [<-|[<-|[]]]; simpl; auto. }
  split; [done|].
  split; [intros ip; rewrite <- worker_script_text; reflexivity|].
  destruct (call_after_sources _ _ _ _ _ _ _ _ Hrun (find_declared cfg w Hin) Hd)
    as (s0 & a & H0 & Hc & Ha & Hres).
  exists s0, a.
  split; [exact H0|]. split; [exact Hc|]. split; [exact Hres|].
  rewrite <- worker_script_text.
  simpl. by rewrite (eval_resolved s0 (worker_user_data cfg) [a "private_ip"])
    by (by repeat constructor).
Qed.

Lemma sample_run_split :
  (firstn 9 sample_run
     ++ Create "worker1-instance" (inl (sample_attrs "worker1-instance"))
     :: skipn 10 sample_run)
  = sample_run.
Proof. vm_compute. reflexivity. Qed.

(** The sample run: every node is created, batch after batch. *)
Lemma sample_run_calls :
  sample_run
  = map (fun n => Create n (inl (sample_attrs n)))
      [ "my-vpc"; "public-subnet"; "internet-gateway"; "public-route-table";
        "lb-secgrp"; "igw-route"; "public-route-table-association";
        "k3s-secgrp"; "master-instance"; "worker1-instance";
        "worker2-instance"; "nginx-instance" ].
Proof. vm_compute. reflexivity. Qed.

Lemma sample_call_attrs k n a :
  In (Create n (inl a)) (firstn k sample_run) -> a = sample_attrs n.
Proof.
  intros H.
  assert (In (Create n (inl a)) sample_run) as H'.
  { rewrite <- (firstn_skipn k sample_run). apply in_or_app. by left. }
  rewrite sample_run_calls in H'.
  apply in_map_iff in H' as (x & [= <- <-] & _). reflexivity.
Qed.

Lemma worker_call_follows_master_address_witness :
  exists s0,
    run (stack ∅) (firstn 9 sample_run) ∅ = Some s0
    /\ eval_input s0 (Out (worker_user_data ∅))
       = Some ("#!/bin/bash" +:+ lf +:+ "# Install K3s agent" +:+ lf
               +:+ "curl -sfL https://get.k3s.io | K3S_TOKEN="
               +:+ dq +:+ "super-secret-token" +:+ dq
               +:+ " K3S_URL=https://10.0.1.10:6443 sh -s -" +:+ lf).
Proof.
  destruct (worker_call_follows_master_address ∅ (worker1_instance ∅)
              (firstn 9 sample_run) (inl (sample_attrs "worker1-instance"))
              (skipn 10 sample_run) sample_final)
    as (_ & _ & s0 & a & H0 & Hc & Hr & He).
  - simpl. auto.
  - change (rname (worker1_instance ∅)) with "worker1-instance".
    rewrite sample_run_split. apply schedule_run.
  - exists s0. split; [exact H0|].
    rewrite He, (sample_call_attrs _ _ _ Hc). reflexivity.
Defined.

(** C2. The load balancer's script is [nginx_user_data_final]: one
    [Output.all] over the private addresses of the master and of both
    workers, applied to the replace chain over the template.  In every run,
    the creation call of the load balancer comes after the successful
    creation calls of all three nodes, and the script handed to it is the
    template with the three resolved addresses written in by [str.replace]:
    for dotted-decimal addresses it reads [server <address>:6443;] for each
    of the three nodes and holds no placeholder. *)
Theorem load_balancer_call_follows_all_addresses
    (cfg : gmap string string) pre ans post st :
  run (stack cfg) (pre ++ Create (rname (nginx_instance cfg)) ans :: post) ∅
    = Some st ->
  user_data_of (nginx_instance cfg)
    = Some (Out (AllApply [ (rname (master_instance cfg), "private_ip");
                            (rname (worker1_instance cfg), "private_ip");
                            (rname (worker2_instance cfg), "private_ip") ]
                          (nginx_lambda nginx_user_data)))
  /\ exists s0 am a1 a2,
       run (stack cfg) pre ∅ = Some s0
       /\ In (Create (rname (master_instance cfg)) (inl am)) pre
       /\ In (Create (rname (worker1_instance cfg)) (inl a1)) pre
       /\ In (Create (rname (worker2_instance cfg)) (inl a2)) pre
       /\ resolved s0 (rname (master_instance cfg), "private_ip")
          = Some (am "private_ip")
       /\ resolved s0 (rname (worker1_instance cfg), "private_ip")
          = Some (a1 "private_ip")
       /\ resolved s0 (rname (worker2_instance cfg), "private_ip")
          = Some (a2 "private_ip")
       /\ eval_input s0 (Out (nginx_user_data_final cfg))
          = Some (Py.replace WORKER2_PRIVATE_IP (a2 "private_ip")
                   (Py.replace WORKER1_PRIVATE_IP (a1 "private_ip")
                     (Py.replace MASTER_PRIVATE_IP (am "private_ip")
                       nginx_user_data)))
       /\ (dotted_decimal (am "private_ip") = true ->
           dotted_decimal (a1 "private_ip") = true ->
           dotted_decimal (a2 "private_ip") = true ->
           exists script,
             eval_input s0 (Out (nginx_user_data_final cfg)) = Some script
             /\ script = backend_config (am "private_ip") (a1 "private_ip")
                           (a2 "private_ip")
             /\ Py.contains ("server " +:+ am "private_ip" +:+ ":6443;") script
                = true
             /\ Py.contains ("server " +:+ a1 "private_ip" +:+ ":6443;") script
                = true
             /\ Py.contains ("server " +:+ a2 "private_ip" +:+ ":6443;") script
                = true
             /\ Py.contains MASTER_PRIVATE_IP script = false
             /\ Py.contains WORKER1_PRIVATE_IP script = false
             /\ Py.contains WORKER2_PRIVATE_IP script = false).
Proof.
  intros Hrun. split; [done|].
  assert (find_resource (stack cfg) (rname (nginx_instance cfg))
          = Some (nginx_instance cfg)) as Hf
    by (apply find_declared; simpl; auto 15).
  destruct (call_after_sources _ _ _ _ _ _ _
              (rname (master_instance cfg), "private_ip") Hrun Hf)
    as (s0 & am & H0 & Hcm & _ & Hm); [simpl; auto|].
  destruct (call_after_sources _ _ _ _ _ _ _
              (rname (worker1_instance cfg), "private_ip") Hrun Hf)
    as (s0' & a1 & H0' & Hc1 & _ & H1); [simpl; auto 6|].
  rewrite H0 in H0'. injection H0' as <-.
  destruct (call_after_sources _ _ _ _ _ _ _
              (rname (worker2_instance cfg), "private_ip") Hrun Hf)
    as (s0' & a2 & H0' & Hc2 & _ & H2); [simpl; auto 7|].
  rewrite H0 in H0'. injection H0' as <-.
  assert (eval_input s0 (Out (nginx_user_data_final cfg))
          = nginx_lambda nginx_user_data
              [am "private_ip"; a1 "private_ip"; a2 "private_ip"]) as He.
  { simpl. by rewrite (eval_resolved s0 (nginx_user_data_final cfg)
                         [am "private_ip"; a1 "private_ip"; a2 "private_ip"])
      by (by repeat constructor). }
  exists s0, am, a1, a2.
  split; [exact H0|]. split; [exact Hcm|]. split; [exact Hc1|].
  split; [exact Hc2|]. split; [exact Hm|]. split; [exact H1|].
  split; [exact H2|]. split; [exact He|].
  intros Dm D1 D2.
  destruct (nginx_lambda_fills_token_free
              (am "private_ip") (a1 "private_ip") (a2 "private_ip"))
    as (Hs & Cm & C1 & C2 & Nm & N1 & N2);
    [by apply dotted_decimal_token_free..|].
  exists (backend_config (am "private_ip") (a1 "private_ip") (a2 "private_ip")).
  split; [by rewrite He|].
  exact (conj eq_refl (conj Cm (conj C1 (conj C2 (conj Nm (conj N1 N2)))))).
Qed.

Lemma sample_run_split_last :
  (firstn 11 sample_run
     ++ Create "nginx-instance" (inl (sample_attrs "nginx-instance")) :: [])
  = sample_run.
Proof. vm_compute. reflexivity. Qed.

Lemma load_balancer_call_follows_all_addresses_witness :
  exists s0 script,
    run (stack ∅) (firstn 11 sample_run) ∅ = Some s0
    /\ eval_input s0 (Out (nginx_user_data_final ∅)) = Some script
    /\ Py.contains "server 10.0.1.10:6443;" script = true
    /\ Py.contains "server 10.0.1.11:6443;" script = true
    /\ Py.contains "server 10.0.1.12:6443;" script = true
    /\ Py.contains MASTER_PRIVATE_IP script = false
    /\ Py.contains WORKER1_PRIVATE_IP script = false
    /\ Py.contains WORKER2_PRIVATE_IP script = false.
Proof.
  destruct (load_balancer_call_follows_all_addresses ∅
              (firstn 11 sample_run) (inl (sample_attrs "nginx-instance"))
              [] sample_final)
    as (_ & s0 & am & a1 & a2 & H0 & Hm & H1 & H2 & _ & _ & _ & _ & Hfill).
  - change (rname (nginx_instance ∅)) with "nginx-instance".
    rewrite sample_run_split_last. apply schedule_run.
  - rewrite (sample_call_attrs _ _ _ Hm), (sample_call_attrs _ _ _ H1),
      (sample_call_attrs _ _ _ H2) in Hfill.
    destruct Hfill as (script & He & _ & Cm & C1 & C2 & Nm & N1 & N2);
      [reflexivity..|].
    exists s0, script.
    exact (conj H0 (conj He (conj Cm (conj C1 (conj C2
             (conj Nm (conj N1 N2))))))).
Defined.



End BootstrapClaims.

(** ** Rendering of the load-balancer script *)

Section RenderingClaims.

Import Py.

(** C4. For every triple of addresses in dotted-decimal notation, as the
    provider resolves them, the replace chain over the template returns a
    script that contains the three backend lines and none of the three
    placeholder tokens. *)
Theorem nginx_lambda_fills_backends (cfg : gmap string string) m w1 w2 :
  dotted_decimal m = true -> dotted_decimal w1 = true ->
  dotted_decimal w2 = true ->
  exists script,
    compute (nginx_user_data_final cfg) [m; w1; w2] = Some script
    /\ nginx_lambda nginx_user_data [m; w1; w2] = Some script
    /\ script = backend_config m w1 w2
    /\ contains ("server " +:+ m +:+ ":6443;") script = true
    /\ contains ("server " +:+ w1 +:+ ":6443;") script = true
    /\ contains ("server " +:+ w2 +:+ ":6443;") script = true
    /\ contains MASTER_PRIVATE_IP script = false
    /\ contains WORKER1_PRIVATE_IP script = false
    /\ contains WORKER2_PRIVATE_IP script = false.
Proof.
  intros Dm D1 D2.
  destruct (nginx_lambda_fills_token_free m w1 w2)
    as (Hs & Cm & C1 & C2 & Nm & N1 & N2);
    [by apply dotted_decimal_token_free..|].
  exists (backend_config m w1 w2).
  exact (conj Hs (conj Hs (conj eq_refl (conj Cm (conj C1 (conj C2
           (conj Nm (conj N1 N2)))))))).
Qed.

Lemma nginx_lambda_fills_backends_witness :
  exists script,
    nginx_lambda nginx_user_data ["10.0.1.10"; "10.0.1.11"; "10.0.1.12"]
    = Some script
    /\ contains "server 10.0.1.10:6443;" script = true
    /\ contains "server 10.0.1.11:6443;" script = true
    /\ contains "server 10.0.1.12:6443;" script = true
    /\ contains MASTER_PRIVATE_IP script = false
    /\ contains WORKER1_PRIVATE_IP script = false
    /\ contains WORKER2_PRIVATE_IP script = false.
Proof.
  destruct (nginx_lambda_fills_backends ∅ "10.0.1.10" "10.0.1.11" "10.0.1.12")
    as (script & _ & Hs & _ & Cm & C1 & C2 & Nm & N1 & N2);
    [reflexivity..|].
  exists script.
  exact (conj Hs (conj Cm (conj C1 (conj C2 (conj Nm (conj N1 N2)))))).
Defined.








End RenderingClaims.

(** ** The master's startup script *)

Section MasterBoot.

Import Py Boot.

Ltac script_part l r :=
  apply contains_spec; exists l, r;
  unfold master_user_data, unlines; rewrite ?app_assoc_s;
  vm_compute; reflexivity.

Lemma master_script_sets_token tok :
  contains ("K3S_TOKEN=" +:+ dq +:+ tok +:+ dq) (master_user_data tok) = true.
Proof.
  script_part (String.substring 0 64 (master_user_data ""))
              (String.substring 76 400 (master_user_data "")).
Qed.


Lemma install_command_joined tok :
  joined [ "curl -sfL https://get.k3s.io | K3S_TOKEN=" +:+ dq +:+ tok
           +:+ dq +:+ " sh -s - server "; "  --cluster-init" ]
  = install_command tok.
Proof.
  unfold joined, install_command. rewrite ?app_assoc_s. reflexivity.
Qed.



(** A loop that ended saw its first successful probe, after one failed
    round for each probe before it. *)
Lemma until_loop_ended api fuel k probe body w k' :
  until_loop api fuel k probe body = Some (w, k') ->
  exists n, n < fuel /\ api (k + n) = true
    /\ (forall j, j < n -> api (k + j) = false)
    /\ w = Nat.iter n (fun tr => Probed probe false :: body ++ tr)
             [Probed probe true].
Proof.
  revert k w k'; induction fuel as [|fuel IH]; intros k w k' H; [done|].
  simpl in H. destruct (api k) eqn:Ek.
  - injection H as <- <-. exists 0. rewrite Nat.add_0_r.
    split; [lia|]. split; [done|]. split; [intros j Hj; lia | done].
  - destruct (until_loop api fuel (S k) probe body) as [[rest k1]|] eqn:Er;
      [|done].
    injection H as <- <-.
    destruct (IH _ _ _ Er) as (n & Hn & Hok & Hbefore & ->).
    exists (S n). split; [lia|].
    split; [by replace (k + S n) with (S k + n) by lia|].
    split; [|done].
    intros j Hj. destruct j as [|j]; [by rewrite Nat.add_0_r|].
    replace (k + S j) with (S k + j) by lia. apply Hbefore. lia.
Qed.

Lemma rounds_iter n tail :
  Nat.iter n (fun tr => Probed master_probe false
                        :: [Ran master_echo; Slept 5] ++ tr) tail
  = rounds n ++ tail.
Proof. induction n as [|n IH]; [done|]. by rewrite Nat.iter_succ, IH. Qed.

(** The run of the master's script is the install command, the loop, and
    the two commands that copy the kubeconfig. *)
Lemma interp_master_script tok api fuel :
  interp api fuel 0 (master_script tok)
  = match until_loop api fuel 0 master_probe [Ran master_echo; Slept 5] with
    | Some (w, _) =>
        Some (Ran (install_command tok)
              :: w ++ [Ran copy_kubeconfig; Ran chown_kubeconfig])
    | None => None
    end.
Proof.
  unfold master_script.
  cbn [interp run_simple flat_map app]. rewrite install_command_joined.
  change (joined [master_echo]) with (master_echo +:+ "").
  change (joined [copy_kubeconfig]) with copy_kubeconfig.
  change (joined [chown_kubeconfig]) with chown_kubeconfig.
  assert (master_echo +:+ "" = master_echo) as -> by reflexivity.
  by destruct (until_loop api fuel 0 master_probe [Ran master_echo; Slept 5])
    as [[w k']|].
Qed.

End MasterBoot.


Section MasterClaims.

Import Py Boot.




(** The other order is a run as well: there the script sees a probe
    succeed before the provider answers. *)
Example master_ready_before_answer :
  Node.ready
    <$> Node.moves (stack ∅) (master_instance ∅) Node.initial
          (map Node.Other (firstn 8 sample_run)
           ++ [Node.Issue; Node.Probe false; Node.Probe true])
  = Some true
  /\ (Node.moves (stack ∅) (master_instance ∅) Node.initial
        (map Node.Other (firstn 8 sample_run)
         ++ [Node.Issue; Node.Probe false; Node.Probe true])
      ≫= Node.published (master_instance ∅)) = None.
Proof. split; vm_compute; reflexivity. Qed.

End MasterClaims.

(** ** Configuration, exports and security groups *)

Section ConfigurationClaims.

Lemma or_default_unset d : or_default None d = d.
Proof. done. Qed.

Lemma or_default_empty d : or_default (Some "") d = d.
Proof. done. Qed.

Lemma or_default_set c s d : or_default (Some (String c s)) d = String c s.
Proof. done. Qed.

(** The program is a function of the five values it reads. *)
Lemma stack_reads_five_keys (cfg cfg' : gmap string string) :
  (forall k, In k config_keys -> cfg !! k = cfg' !! k) ->
  stack cfg = stack cfg' /\ exports cfg = exports cfg'.
Proof.
  intros H.
  assert (vpc_cidr cfg = vpc_cidr cfg') as E1
    by (unfold vpc_cidr; rewrite (H "vpc_cidr"); [done | simpl; auto]).
  assert (public_subnet_cidr cfg = public_subnet_cidr cfg') as E2
    by (unfold public_subnet_cidr; rewrite (H "public_subnet_cidr");
        [done | simpl; auto]).
  assert (availability_zone cfg = availability_zone cfg') as E3
    by (unfold availability_zone; rewrite (H "availability_zone");
        [done | simpl; auto]).
  assert (ubuntu_ami_id cfg = ubuntu_ami_id cfg') as E4
    by (unfold ubuntu_ami_id; rewrite (H "ami_id"); [done | simpl; auto]).
  assert (k3s_token cfg = k3s_token cfg') as E5
    by (unfold k3s_token; rewrite (H "k3s_token"); [done | simpl; auto 6]).
  split; [|done].
  unfold stack, vpc, public_subnet, igw, public_route_table, route,
    route_table_association, lb_security_group, k3s_security_group,
    master_instance, worker1_instance, worker2_instance, nginx_instance,
    worker_user_data, nginx_user_data_final, attr, vpc, public_subnet,
    master_instance, worker1_instance, worker2_instance; simpl.
  by rewrite E1, E2, E3, E4, E5.
Qed.

(** C7 (amended). The configuration surface is exactly five options:
    network CIDR, subnet CIDR, availability zone, machine image and join
    secret.  Each is recognised under its key: a non-empty value set there
    is the value the declarations carry, an unset or empty value gives the
    default.  Each is read once, before any resource is declared, and
    enters the declarations as a plain string; two configurations that
    agree on the five keys give the same stack and exports.  The number of
    workers is not an option: it is two. *)
Theorem configuration_surface_is_five_keys
    (cfg cfg' : gmap string string) (v : string) :
  (forall k, In k config_keys -> cfg !! k = cfg' !! k) ->
  v <> "" ->
  stack cfg = stack cfg'
  /\ exports cfg = exports cfg'
  /\ length (workers cfg) = 2
  /\ vpc_cidr ∅ = "10.0.0.0/16"
  /\ public_subnet_cidr ∅ = "10.0.1.0/24"
  /\ availability_zone ∅ = "ap-southeast-1a"
  /\ ubuntu_ami_id ∅ = "ami-060e277c0d4cce553"
  /\ k3s_token ∅ = "super-secret-token"
  /\ rargs (vpc cfg) = Vpc (Lit (vpc_cidr cfg)) [("Name", "my-vpc")]
  /\ rargs (public_subnet cfg)
     = Subnet (Out (attr (vpc cfg) "id")) (Lit (public_subnet_cidr cfg))
         (Lit (availability_zone cfg)) true [("Name", "public-subnet")]
  /\ Forall (fun r => In (Lit (ubuntu_ami_id cfg)) (inputs (rargs r)))
       [master_instance cfg; worker1_instance cfg; worker2_instance cfg;
        nginx_instance cfg]
  /\ rargs (vpc (<["vpc_cidr" := v]> cfg)) = Vpc (Lit v) [("Name", "my-vpc")]
  /\ rargs (public_subnet (<["public_subnet_cidr" := v]> cfg))
     = Subnet (Out (Attr "my-vpc" "id")) (Lit v)
         (Lit (availability_zone cfg)) true [("Name", "public-subnet")]
  /\ rargs (public_subnet (<["availability_zone" := v]> cfg))
     = Subnet (Out (Attr "my-vpc" "id")) (Lit (public_subnet_cidr cfg))
         (Lit v) true [("Name", "public-subnet")]
  /\ Forall (fun r => ami_of r = Some (Lit v))
       [master_instance (<["ami_id" := v]> cfg);
        worker1_instance (<["ami_id" := v]> cfg);
        worker2_instance (<["ami_id" := v]> cfg);
        nginx_instance (<["ami_id" := v]> cfg)]
  /\ user_data_of (master_instance (<["k3s_token" := v]> cfg))
     = Some (Lit (master_user_data v))
  /\ Forall (fun w => user_data_of w
                      = Some (Out (AllApply [("master-instance", "private_ip")]
                                            (worker_lambda v))))
       (workers (<["k3s_token" := v]> cfg))
  /\ ((cfg !! "vpc_cidr" = None \/ cfg !! "vpc_cidr" = Some "") ->
      rargs (vpc cfg) = Vpc (Lit "10.0.0.0/16") [("Name", "my-vpc")])
  /\ ((cfg !! "public_subnet_cidr" = None
       \/ cfg !! "public_subnet_cidr" = Some "") ->
      public_subnet_cidr cfg = "10.0.1.0/24")
  /\ ((cfg !! "availability_zone" = None
       \/ cfg !! "availability_zone" = Some "") ->
      availability_zone cfg = "ap-southeast-1a")
  /\ ((cfg !! "ami_id" = None \/ cfg !! "ami_id" = Some "") ->
      Forall (fun r => ami_of r = Some (Lit "ami-060e277c0d4cce553"))
        [master_instance cfg; worker1_instance cfg; worker2_instance cfg;
         nginx_instance cfg])
  /\ ((cfg !! "k3s_token" = None \/ cfg !! "k3s_token" = Some "") ->
      user_data_of (master_instance cfg)
      = Some (Lit (master_user_data "super-secret-token"))).
Proof.
  intros H Hv. destruct (stack_reads_five_keys cfg cfg' H) as [-> ->].
  assert (forall k d, or_default (<[k := v]> cfg !! k) d = v) as Hset.
  { intros k d. rewrite lookup_insert_eq. by destruct v. }
  assert (forall k d, cfg !! k = None \/ cfg !! k = Some "" ->
                      or_default (cfg !! k) d = d) as Hdef.
  { by intros k d [-> | ->]. }
  do 10 (split; [done|]).
  split; [repeat (apply List.Forall_cons; [simpl; tauto|]);
          apply List.Forall_nil|].
  split; [unfold vpc, vpc_cidr; cbn [rargs]; by rewrite Hset|].
  split.
  { unfold public_subnet, public_subnet_cidr, availability_zone.
    cbn [rargs]. by rewrite Hset, lookup_insert_ne by done. }
  split.
  { unfold public_subnet, public_subnet_cidr, availability_zone.
    cbn [rargs]. by rewrite Hset, lookup_insert_ne by done. }
  split.
  { repeat (apply List.Forall_cons;
            [unfold ami_of, master_instance, worker1_instance,
               worker2_instance, nginx_instance, ubuntu_ami_id;
             cbn [rargs]; by rewrite Hset|]).
    apply List.Forall_nil. }
  split.
  { unfold user_data_of, master_instance, k3s_token. cbn [rargs].
    by rewrite Hset. }
  split.
  { unfold workers.
    repeat (apply List.Forall_cons;
            [unfold user_data_of, worker1_instance, worker2_instance,
               worker_user_data, master_instance, k3s_token;
             cbn [rargs rname]; by rewrite Hset|]).
    apply List.Forall_nil. }
  split; [intros Hk; unfold vpc, vpc_cidr; cbn [rargs]; by rewrite Hdef|].
  split; [intros Hk; unfold public_subnet_cidr; by rewrite Hdef|].
  split; [intros Hk; unfold availability_zone; by rewrite Hdef|].
  split.
  { intros Hk.
    repeat (apply List.Forall_cons;
            [unfold ami_of, master_instance, worker1_instance,
               worker2_instance, nginx_instance, ubuntu_ami_id;
             cbn [rargs]; by rewrite Hdef|]).
    apply List.Forall_nil. }
  intros Hk. unfold user_data_of, master_instance, k3s_token. cbn [rargs].
  by rewrite Hdef.
Qed.

Lemma configuration_surface_is_five_keys_witness :
  stack (<["k3s_token" := "s3cret"]> (<["worker_count" := "5"]> ∅))
  = stack (<["k3s_token" := "s3cret"]> ∅)
  /\ rargs (vpc (<["vpc_cidr" := "10.1.0.0/16"]>
                  (<["k3s_token" := "s3cret"]> (<["worker_count" := "5"]> ∅))))
     = Vpc (Lit "10.1.0.0/16") [("Name", "my-vpc")]
  /\ user_data_of
       (master_instance
          (<["k3s_token" := "10.1.0.0/16"]>
             (<["k3s_token" := "s3cret"]> (<["worker_count" := "5"]> ∅))))
     = Some (Lit (master_user_data "10.1.0.0/16")).
Proof.
  destruct (configuration_surface_is_five_keys
              (<["k3s_token" := "s3cret"]> (<["worker_count" := "5"]> ∅))
              (<["k3s_token" := "s3cret"]> ∅) "10.1.0.0/16")
    as (Hs & _ & _ & _ & _ & _ & _ & _ & _ & _ & _ & Hv & _ & _ & _ & Ht & _).
  - intros k Hk. simpl in Hk.
    repeat (destruct Hk as [<-|Hk]; [vm_compute; reflexivity|]). destruct Hk.
  - discriminate.
  - split; [exact Hs|]. split; [exact Hv | exact Ht].
Defined.

(** C7, as stated, fails: a worker count in the configuration changes
    nothing, the stack is the one of the empty configuration and has two
    workers, while a value under one of the five keys does change the
    declarations. *)
Lemma worker_count_is_not_read :
  stack (<["worker_count" := "5"]> ∅) = stack ∅
  /\ length (workers (<["worker_count" := "5"]> ∅)) = 2
  /\ length (filter (fun r => bool_decide (is_instance r = true))
               (stack (<["worker_count" := "5"]> ∅))) = 4
  /\ rargs (vpc (<["vpc_cidr" := "10.1.0.0/16"]> ∅)) <> rargs (vpc ∅)
  /\ user_data_of (master_instance (<["k3s_token" := "s3cret"]> ∅))
     <> user_data_of (master_instance ∅).
Proof.
  split; [|split; [done | split; [vm_compute; reflexivity|]]].
  - apply stack_reads_five_keys. intros k Hk. simpl in Hk.
    repeat (destruct Hk as [<-|Hk]; [vm_compute; reflexivity|]). destruct Hk.
  - split; intros E; vm_compute in E; discriminate E.
Qed.

End ConfigurationClaims.

Section ExportClaims.

(** An exported attribute of a created node is among the stack outputs,
    with the value the provider returned for it. *)
Lemma stack_outputs_created (cfg : gmap string string) st k n a at_ :
  exports cfg !! k = Some (Attr n a) ->
  st !! n = Some (Created at_) ->
  stack_outputs (exports cfg) st !! k = Some (at_ a).
Proof.
  intros Hk Hn. unfold stack_outputs. rewrite lookup_omap, Hk. simpl.
  rewrite (eval_resolved st (Attr n a) [at_ a]); [done|].
  repeat constructor. unfold resolved. simpl. by rewrite Hn.
Qed.

Ltac export_key cfg st n a at_ :=
  apply (stack_outputs_created cfg st _ n a at_);
  [vm_compute; reflexivity | assumption].

(** C8. Once the master, both workers and the load balancer are created,
    the stack outputs map a key to the instance id, the public address and
    the private address of each of them, with the values the provider
    returned. *)
Theorem exports_publish_instance_attributes
    (cfg : gmap string string) (st : state) am a1 a2 an :
  st !! rname (master_instance cfg) = Some (Created am) ->
  st !! rname (worker1_instance cfg) = Some (Created a1) ->
  st !! rname (worker2_instance cfg) = Some (Created a2) ->
  st !! rname (nginx_instance cfg) = Some (Created an) ->
  let out := stack_outputs (exports cfg) st in
  out !! "master_instance_id" = Some (am "id")
  /\ out !! "master_instance_ip" = Some (am "public_ip")
  /\ out !! "master_private_ip" = Some (am "private_ip")
  /\ out !! "worker1_instance_id" = Some (a1 "id")
  /\ out !! "worker1_instance_ip" = Some (a1 "public_ip")
  /\ out !! "worker1_private_ip" = Some (a1 "private_ip")
  /\ out !! "worker2_instance_id" = Some (a2 "id")
  /\ out !! "worker2_instance_ip" = Some (a2 "public_ip")
  /\ out !! "worker2_private_ip" = Some (a2 "private_ip")
  /\ out !! "nginx_instance_id" = Some (an "id")
  /\ out !! "nginx_instance_ip" = Some (an "public_ip")
  /\ out !! "nginx_private_ip" = Some (an "private_ip").
Proof.
  intros Hm H1 H2 Hn out. unfold out.
  split; [export_key cfg st "master-instance" "id" am|].
  split; [export_key cfg st "master-instance" "public_ip" am|].
  split; [export_key cfg st "master-instance" "private_ip" am|].
  split; [export_key cfg st "worker1-instance" "id" a1|].
  split; [export_key cfg st "worker1-instance" "public_ip" a1|].
  split; [export_key cfg st "worker1-instance" "private_ip" a1|].
  split; [export_key cfg st "worker2-instance" "id" a2|].
  split; [export_key cfg st "worker2-instance" "public_ip" a2|].
  split; [export_key cfg st "worker2-instance" "private_ip" a2|].
  split; [export_key cfg st "nginx-instance" "id" an|].
  split; [export_key cfg st "nginx-instance" "public_ip" an|].
  export_key cfg st "nginx-instance" "private_ip" an.
Qed.

Lemma sample_final_instances :
  sample_final !! "master-instance" = Some (Created (sample_attrs "master-instance"))
  /\ sample_final !! "worker1-instance" = Some (Created (sample_attrs "worker1-instance"))
  /\ sample_final !! "worker2-instance" = Some (Created (sample_attrs "worker2-instance"))
  /\ sample_final !! "nginx-instance" = Some (Created (sample_attrs "nginx-instance")).
Proof.
  repeat match goal with |- _ /\ _ => split end; vm_compute; reflexivity.
Qed.

Lemma exports_publish_instance_attributes_witness :
  stack_outputs (exports ∅) sample_final !! "master_private_ip" = Some "10.0.1.10"
  /\ stack_outputs (exports ∅) sample_final !! "nginx_instance_id"
     = Some "nginx-instance.id".
Proof.
  destruct sample_final_instances as (Hm & H1 & H2 & Hn).
  destruct (exports_publish_instance_attributes ∅ sample_final _ _ _ _
              Hm H1 H2 Hn) as (_ & _ & Hp & _ & _ & _ & _ & _ & _ & Hi & _).
  split; [exact Hp | exact Hi].
Defined.

End ExportClaims.

Section SecurityGroupClaims.

Variable cfg : gmap string string.

Lemma lb_allows_iff proto port :
  allows (ingress_of (lb_security_group cfg)) proto port = true
  <-> proto = "tcp" /\ (port = 80 \/ port = 443 \/ port = 22)%Z.
Proof.
  unfold allows, rule_allows.
  cbn [ingress_of lb_security_group rargs existsb protocol from_port to_port].
  change (String.eqb "tcp" "-1") with false.
  destruct (String.eqb "tcp" proto) eqn:E.
  - apply String.eqb_eq in E as <-.
    rewrite !orb_false_l, !orb_false_r, !andb_true_l, !orb_true_iff,
      !andb_true_iff, !Z.leb_le.
    split; [intros H; split; [done | lia] | intros [_ H]; lia].
  - apply String.eqb_neq in E. simpl. split; [done | intros [-> _]; done].
Qed.

(** C9. The load balancer's security group lets in TCP on ports 80, 443
    and 22 from anywhere and nothing else; port 6443, on which the nginx
    configuration written by the script listens and to which it proxies, is
    not let in.  The load balancer attaches this group and no other. *)
Theorem lb_ingress_is_80_443_22 :
  (forall proto port,
     allows (ingress_of (lb_security_group cfg)) proto port = true
     <-> proto = "tcp" /\ (port = 80 \/ port = 443 \/ port = 22)%Z)
  /\ map rule_ports (ingress_of (lb_security_group cfg))
     = [("tcp", 80, 80); ("tcp", 443, 443); ("tcp", 22, 22)]%Z
  /\ Forall (fun r => cidr_blocks r = [Lit "0.0.0.0/0"])
       (ingress_of (lb_security_group cfg))
  /\ allows (ingress_of (lb_security_group cfg)) "tcp" 6443 = false
  /\ security_groups_of (nginx_instance cfg)
     = [Out (attr (lb_security_group cfg) "id")]
  /\ Py.contains "listen 6443;" nginx_user_data = true
  /\ (forall m w1 w2,
        Py.contains "listen 6443;" (backend_config m w1 w2) = true
        /\ Py.contains ("server " +:+ m +:+ ":6443;") (backend_config m w1 w2)
           = true).
Proof.
  split; [apply lb_allows_iff|].
  split; [done|].
  split; [by repeat constructor|].
  split; [done|]. split; [done|].
  split; [vm_compute; reflexivity|].
  intros m w1 w2. split; [|apply backend_line_master].
  apply contains_spec. rewrite backend_config_segments.
  exists (seg_head +:+ m +:+ seg_mid +:+ w1 +:+ seg_mid +:+ w2
          +:+ String.substring 0 34 seg_tail),
         (String.substring 46 400 seg_tail).
  rewrite ?app_assoc_s. vm_compute. reflexivity.
Qed.

(** C10. In the security group of the cluster nodes the rules are, in
    order, TCP 6443, UDP 8472, TCP 22, TCP 80, TCP 443 and all protocols;
    the SSH rule takes its source from ["0.0.0.0/0"] and every other rule
    from the subnet's [cidr_block]; the master and both workers attach this
    group and no other. *)
Theorem k3s_ingress_is_subnet_only_except_ssh :
  map rule_ports (ingress_of (k3s_security_group cfg))
  = [("tcp", 6443, 6443); ("udp", 8472, 8472); ("tcp", 22, 22);
     ("tcp", 80, 80); ("tcp", 443, 443); ("-1", 0, 0)]%Z
  /\ Forall (fun r =>
       cidr_blocks r
       = if is_ssh r then [Lit "0.0.0.0/0"]
         else [Out (attr (public_subnet cfg) "cidr_block")])
       (ingress_of (k3s_security_group cfg))
  /\ Forall (fun r =>
       security_groups_of r = [Out (attr (k3s_security_group cfg) "id")])
       [master_instance cfg; worker1_instance cfg; worker2_instance cfg].
Proof.
  split; [done|]. split; by repeat constructor.
Qed.

End SecurityGroupClaims.

(** * Further properties of the program *)

Section ConfigurationValues.

Lemma or_default_nonempty v d : d <> "" -> or_default v d <> "".
Proof. intros Hd. by destruct v as [[|c s]|]. Qed.

(** X1. Whatever the configuration holds, none of the five values the
    program works with is the empty string: [or] puts the default in the
    place of an unset and of an empty value. *)
Theorem configured_values_never_empty (cfg : gmap string string) :
  vpc_cidr cfg <> ""
  /\ public_subnet_cidr cfg <> ""
  /\ availability_zone cfg <> ""
  /\ ubuntu_ami_id cfg <> ""
  /\ k3s_token cfg <> "".
Proof. repeat split; by apply or_default_nonempty. Qed.

(** X2. A key set to a non-empty value gives that value as it is; a key
    set to the empty string gives what the unset key gives, its default. *)
Theorem configured_value_verbatim_or_default
    (cfg : gmap string string) (v : string) :
  v <> "" ->
  vpc_cidr (<["vpc_cidr" := v]> cfg) = v
  /\ public_subnet_cidr (<["public_subnet_cidr" := v]> cfg) = v
  /\ availability_zone (<["availability_zone" := v]> cfg) = v
  /\ ubuntu_ami_id (<["ami_id" := v]> cfg) = v
  /\ k3s_token (<["k3s_token" := v]> cfg) = v
  /\ vpc_cidr (<["vpc_cidr" := ""]> cfg) = vpc_cidr ∅
  /\ public_subnet_cidr (<["public_subnet_cidr" := ""]> cfg)
     = public_subnet_cidr ∅
  /\ availability_zone (<["availability_zone" := ""]> cfg)
     = availability_zone ∅
  /\ ubuntu_ami_id (<["ami_id" := ""]> cfg) = ubuntu_ami_id ∅
  /\ k3s_token (<["k3s_token" := ""]> cfg) = k3s_token ∅.
Proof.
  intros Hv.
  unfold vpc_cidr, public_subnet_cidr, availability_zone, ubuntu_ami_id,
    k3s_token.
  rewrite !lookup_insert_eq, lookup_empty.
  destruct v as [|c s]; [done|]. by repeat split.
Qed.

Lemma configured_value_verbatim_or_default_witness :
  k3s_token (<["k3s_token" := "s3cret"]> ∅) = "s3cret"
  /\ k3s_token (<["k3s_token" := ""]> ∅) = "super-secret-token".
Proof.
  destruct (configured_value_verbatim_or_default ∅ "s3cret")
    as (_ & _ & _ & _ & Hs & _ & _ & _ & _ & He); [discriminate|].
  split; [exact Hs | exact He].
Defined.

End ConfigurationValues.

Section ConfigurationFootprint.

Lemma or_default_other_key (cfg : gmap string string) k k' v d :
  k <> k' -> or_default (<[k := v]> cfg !! k') d = or_default (cfg !! k') d.
Proof. intros H. by rewrite lookup_insert_ne. Qed.

Ltac unfold_program :=
  unfold others, stack, exports, export_calls, vpc, public_subnet, igw,
    public_route_table, route, route_table_association, lb_security_group,
    k3s_security_group, master_instance, worker1_instance, worker2_instance,
    nginx_instance, worker_user_data, nginx_user_data_final, attr,
    vpc_cidr, public_subnet_cidr, availability_zone, ubuntu_ami_id, k3s_token;
  cbn [List.filter negb existsb rname String.eqb Ascii.eqb Bool.eqb orb];
  rewrite ?or_default_other_key by discriminate; reflexivity.

(** X3. Each configuration key reaches only the declarations that use its
    value: the network CIDR only the VPC, the subnet CIDR and the
    availability zone only the subnet, the machine image only the four
    instances, the join secret only the master and the two workers.  No
    key reaches the exports, and the load balancer's declaration does not
    depend on the join secret. *)
Theorem configuration_key_footprint (cfg : gmap string string) (v : string) :
  others ["my-vpc"] (stack (<["vpc_cidr" := v]> cfg))
    = others ["my-vpc"] (stack cfg)
  /\ others ["public-subnet"] (stack (<["public_subnet_cidr" := v]> cfg))
     = others ["public-subnet"] (stack cfg)
  /\ others ["public-subnet"] (stack (<["availability_zone" := v]> cfg))
     = others ["public-subnet"] (stack cfg)
  /\ others ["master-instance"; "worker1-instance"; "worker2-instance";
             "nginx-instance"] (stack (<["ami_id" := v]> cfg))
     = others ["master-instance"; "worker1-instance"; "worker2-instance";
               "nginx-instance"] (stack cfg)
  /\ others ["master-instance"; "worker1-instance"; "worker2-instance"]
       (stack (<["k3s_token" := v]> cfg))
     = others ["master-instance"; "worker1-instance"; "worker2-instance"]
         (stack cfg)
  /\ nginx_instance (<["k3s_token" := v]> cfg) = nginx_instance cfg
  /\ (forall cfg' : gmap string string, exports cfg' = exports cfg).
Proof.
  split; [unfold_program|]. split; [unfold_program|].
  split; [unfold_program|]. split; [unfold_program|].
  split; [unfold_program|]. split; [unfold_program|].
  intros cfg'. reflexivity.
Qed.

End ConfigurationFootprint.

Section Lambdas.

Import Py.

(** X4. Each lambda indexes only positions that [Output.all] fills: given
    as many values as the output has sources it returns a script, and it
    looks at nothing beyond them; given fewer it raises. *)
Theorem lambdas_index_their_sources (cfg : gmap string string) (vs : list string) :
  (length vs = length (sources (worker_user_data cfg)) ->
     is_Some (compute (worker_user_data cfg) vs))
  /\ (length vs = length (sources (nginx_user_data_final cfg)) ->
        is_Some (compute (nginx_user_data_final cfg) vs))
  /\ (length vs < length (sources (worker_user_data cfg)) ->
        compute (worker_user_data cfg) vs = None)
  /\ (length vs < length (sources (nginx_user_data_final cfg)) ->
        compute (nginx_user_data_final cfg) vs = None)
  /\ (forall more,
        length vs = length (sources (worker_user_data cfg)) ->
        compute (worker_user_data cfg) (vs ++ more)
        = compute (worker_user_data cfg) vs)
  /\ (forall more,
        length vs = length (sources (nginx_user_data_final cfg)) ->
        compute (nginx_user_data_final cfg) (vs ++ more)
        = compute (nginx_user_data_final cfg) vs).
Proof.
  simpl.
  split; [|split; [|split; [|split; [|split]]]].
  - destruct vs as [|a [|b l]]; try discriminate. intros _. by eexists.
  - destruct vs as [|a [|b [|c [|d l]]]]; try discriminate. intros _.
    by eexists.
  - destruct vs as [|a l]; [done|]. simpl. intros H. lia.
  - destruct vs as [|a [|b [|c l]]]; try done. simpl. intros H. lia.
  - intros more. by destruct vs as [|a [|b l]].
  - intros more. by destruct vs as [|a [|b [|c [|d l]]]].
Qed.

Lemma lambdas_index_their_sources_witness :
  is_Some (compute (nginx_user_data_final ∅)
             ["10.0.1.10"; "10.0.1.11"; "10.0.1.12"])
  /\ compute (nginx_user_data_final ∅) ["10.0.1.10"; "10.0.1.11"] = None.
Proof.
  split.
  - destruct (lambdas_index_their_sources ∅
                ["10.0.1.10"; "10.0.1.11"; "10.0.1.12"]) as (_ & H & _).
    apply H. reflexivity.
  - destruct (lambdas_index_their_sources ∅ ["10.0.1.10"; "10.0.1.11"])
      as (_ & _ & _ & H & _).
    apply H. simpl. lia.
Defined.

(** X5. For every join secret and master address, the worker lambda
    returns a script that sets [K3S_TOKEN] to the secret, quoted, and
    [K3S_URL] to [https://<address>:6443]; the master's script sets
    [K3S_TOKEN] to the same secret, so server and agents share one token. *)
Theorem worker_script_joins_master (cfg : gmap string string) (ip : string) :
  exists script,
    compute (worker_user_data cfg) [ip] = Some script
    /\ contains ("K3S_TOKEN=" +:+ dq +:+ k3s_token cfg +:+ dq) script = true
    /\ contains ("K3S_URL=https://" +:+ ip +:+ ":6443") script = true
    /\ contains ("K3S_TOKEN=" +:+ dq +:+ k3s_token cfg +:+ dq)
         (master_user_data (k3s_token cfg)) = true.
Proof.
  exists (worker_script (k3s_token cfg) ip). split; [done|].
  split; [|split; [|apply master_script_sets_token]].
  - apply contains_spec.
    exists ("#!/bin/bash" +:+ lf +:+ "# Install K3s agent" +:+ lf
            +:+ "curl -sfL https://get.k3s.io | "),
           (" K3S_URL=https://" +:+ ip +:+ ":6443 sh -s -" +:+ lf).
    unfold worker_script, unlines. rewrite ?app_assoc_s. reflexivity.
  - apply contains_spec.
    exists ("#!/bin/bash" +:+ lf +:+ "# Install K3s agent" +:+ lf
            +:+ "curl -sfL https://get.k3s.io | K3S_TOKEN=" +:+ dq
            +:+ k3s_token cfg +:+ dq +:+ " "),
           (" sh -s -" +:+ lf).
    unfold worker_script, unlines. rewrite ?app_assoc_s. reflexivity.
Qed.

End Lambdas.

Section BootTrace.

Import Boot.

Lemma slept_app tr1 tr2 : slept (tr1 ++ tr2) = slept tr1 + slept tr2.
Proof.
  induction tr1 as [|e tr1 IH]; [done|].
  destruct e; simpl; rewrite IH; lia.
Qed.

Lemma slept_rounds n : slept (rounds n) = 5 * n.
Proof. induction n as [|n IH]; [done|]. simpl. rewrite IH. lia. Qed.

(** X6. A boot of the master that gets to the end had a join secret the
    shell takes as it is, ran the install command first, then one failed
    probe, message and five-second sleep for each of the [n] probes before
    the first one that succeeded, and copied the kubeconfig only after that
    probe; it slept [5 * n] seconds in all. *)
Theorem master_boot_ends_after_first_success tok api fuel tr :
  master_boot tok api fuel = Finished tr ->
  shell_safe tok = true
  /\ exists n,
       n < fuel /\ api n = true /\ (forall k, k < n -> api k = false)
       /\ tr = Ran (install_command tok)
               :: rounds n
               ++ [ Probed master_probe true;
                    Ran copy_kubeconfig; Ran chown_kubeconfig ]
       /\ slept tr = 5 * n.
Proof.
  unfold master_boot. intros H.
  destruct (shell_safe tok); [|done]. split; [done|].
  rewrite interp_master_script in H.
  destruct (until_loop api fuel 0 master_probe [Ran master_echo; Slept 5])
    as [[w k']|] eqn:Ew; [|done].
  injection H as <-.
  destruct (until_loop_ended _ _ _ _ _ _ _ Ew) as (n & Hn & Hok & Hbefore & ->).
  exists n. split; [done|]. split; [done|]. split; [done|].
  rewrite rounds_iter, <- app_assoc. split; [done|].
  simpl. rewrite slept_app, slept_rounds. simpl. lia.
Qed.

Lemma master_boot_ends_after_first_success_witness :
  exists n, n < 5 /\ (fun k => 2 <=? k) n = true
    /\ forall k, k < n -> (fun k => 2 <=? k) k = false.
Proof.
  destruct (master_boot_ends_after_first_success "super-secret-token"
              (fun k => 2 <=? k) 5
              [ Ran (install_command "super-secret-token");
                Probed master_probe false; Ran master_echo; Slept 5;
                Probed master_probe false; Ran master_echo; Slept 5;
                Probed master_probe true;
                Ran copy_kubeconfig; Ran chown_kubeconfig ])
    as (_ & n & Hn & Hok & Hbefore & _); [vm_compute; reflexivity|].
  exists n. split; [exact Hn|]. split; [exact Hok | exact Hbefore].
Defined.

(** A secret with a character the shell does not take as it is is outside
    what [master_boot] describes. *)
Example master_boot_unread :
  master_boot "pa$$word" (fun _ => true) 5 = Unread
  /\ shell_safe "super-secret-token" = true.
Proof. split; reflexivity. Qed.

End BootTrace.

Section Traffic.

Variable in_block : Input -> bool.

Lemma rule_lets_true r proto port :
  rule_lets in_block r proto port = true
  <-> rule_allows r proto port = true
      /\ existsb in_block (cidr_blocks r) = true.
Proof. unfold rule_lets. apply andb_true_iff. Qed.

(** X7. Both security groups let every outgoing packet through: any
    protocol, any port, to a destination in [0.0.0.0/0]. *)
Theorem egress_is_open (cfg : gmap string string) proto port :
  in_block (Lit "0.0.0.0/0") = true ->
  lets in_block (egress_of (lb_security_group cfg)) proto port = true
  /\ lets in_block (egress_of (k3s_security_group cfg)) proto port = true.
Proof.
  intros H. unfold lets, rule_lets, rule_allows. simpl. rewrite H. done.
Qed.

(** X8. What the cluster nodes' security group lets in depends on the
    source only through the subnet: a packet from inside the subnet's block
    is let in on every protocol and port, a packet from outside it only on
    TCP port 22.  The rules for 6443, 8472, 80 and 443 add nothing to the
    all-protocol rule. *)
Theorem k3s_ingress_by_source (cfg : gmap string string) proto port :
  in_block (Lit "0.0.0.0/0") = true ->
  (lets in_block (ingress_of (k3s_security_group cfg)) proto port = true
   <-> in_block (Out (attr (public_subnet cfg) "cidr_block")) = true
       \/ (proto = "tcp" /\ port = 22%Z))
  /\ lets in_block (ingress_of (k3s_security_group cfg)) proto port
     = lets in_block
         [ Rule "tcp" 22 22 [Lit "0.0.0.0/0"];
           Rule "-1" 0 0 [Out (attr (public_subnet cfg) "cidr_block")] ]
         proto port.
Proof.
  intros Hany. unfold lets, rule_lets, rule_allows.
  cbn [ingress_of k3s_security_group rargs existsb protocol from_port
       to_port cidr_blocks].
  rewrite Hany.
  change (String.eqb "tcp" "-1") with false.
  change (String.eqb "udp" "-1") with false.
  change (String.eqb "-1" "-1") with true.
  destruct (in_block (Out (attr (public_subnet cfg) "cidr_block"))) eqn:Es;
    repeat (cbn [orb andb];
            rewrite ?orb_true_r, ?orb_false_r, ?andb_false_r, ?andb_true_r).
  - split; [|done]. split; auto.
  - split; [|done].
    rewrite !andb_true_iff, !Z.leb_le, String.eqb_eq.
    split.
    + intros [[<- ?] ?]. right. split; [done | lia].
    + intros [[=]|[-> ->]]. split; [done | lia].
Qed.

End Traffic.

Section TrafficWitnesses.

Lemma egress_is_open_witness :
  lets from_outside (egress_of (k3s_security_group ∅)) "tcp" 443 = true.
Proof. apply (egress_is_open from_outside ∅ "tcp" 443). reflexivity. Defined.

Lemma k3s_ingress_by_source_witness :
  lets from_outside (ingress_of (k3s_security_group ∅)) "tcp" 6443 = false
  /\ lets from_outside (ingress_of (k3s_security_group ∅)) "tcp" 22 = true.
Proof.
  destruct (k3s_ingress_by_source from_outside ∅ "tcp" 6443 eq_refl)
    as [H6 _].
  destruct (k3s_ingress_by_source from_outside ∅ "tcp" 22 eq_refl)
    as [H22 _].
  split.
  - destruct (lets from_outside (ingress_of (k3s_security_group ∅)) "tcp" 6443);
      [|done].
    destruct (proj1 H6 eq_refl) as [?|[_ ?]]; done.
  - apply H22. by right.
Defined.

End TrafficWitnesses.

Section Network.

(** X9. Every instance the program declares has a way out to the
    internet, which its startup script needs to download its packages: it
    asks for a public address, and its subnet hands out public addresses and
    is associated with a route table whose route for [0.0.0.0/0] goes to an
    internet gateway of the subnet's VPC. *)
Theorem instances_reach_internet (cfg : gmap string string) r :
  In r (stack cfg) -> is_instance r = true ->
  reaches_internet (stack cfg) r = true.
Proof.
  intros Hr Hi. simpl in Hr.
  repeat (destruct Hr as [<-|Hr]; [first [discriminate Hi | vm_compute; reflexivity]|]).
  destruct Hr.
Qed.

Lemma instances_reach_internet_witness :
  reaches_internet (stack ∅) (nginx_instance ∅) = true.
Proof.
  apply instances_reach_internet; [simpl; auto 15 | reflexivity].
Defined.

(** Without the route to the gateway, or without the association of the
    route table with the subnet, no instance has a way out. *)
Example no_route_no_internet :
  reaches_internet (others ["igw-route"] (stack ∅)) (master_instance ∅) = false
  /\ reaches_internet (others ["public-route-table-association"] (stack ∅))
       (master_instance ∅) = false.
Proof. split; vm_compute; reflexivity. Qed.

End Network.

Section Exports.

Lemma foldl_insert_lookup (l : list (string * Output)) (m : gmap string Output) k o :
  foldl (fun m kv => <[kv.1 := kv.2]> m) m l !! k = Some o ->
  In (k, o) l \/ m !! k = Some o.
Proof.
  revert m; induction l as [|[k' o'] l IH]; simpl; intros m H; [by right|].
  destruct (IH _ H) as [Hl|Hm]; [by auto|].
  destruct (decide (k' = k)) as [->|Hne].
  - rewrite lookup_insert_eq in Hm. injection Hm as ->. auto.
  - rewrite lookup_insert_ne in Hm by done. by right.
Qed.

(** X10. The sixteen export calls use sixteen different keys, so none
    replaces another, and every exported value is the [id], [public_ip] or
    [private_ip] attribute of a resource the program declares: no export
    dangles and none is computed from the join secret. *)
Theorem exports_are_attributes_of_declared_resources
    (cfg : gmap string string) :
  size (exports cfg) = length (export_calls cfg)
  /\ length (export_calls cfg) = 16
  /\ forall k o, exports cfg !! k = Some o ->
       exists r a, In r (stack cfg) /\ o = attr r a
                   /\ In a ["id"; "public_ip"; "private_ip"].
Proof.
  split; [vm_compute; reflexivity|]. split; [done|].
  intros k o [H|H]%foldl_insert_lookup; [|by rewrite lookup_empty in H].
  simpl in H.
  repeat (destruct H as [[= <- <-]|H];
          [eexists _, _; split; [|split; [reflexivity|simpl; tauto]];
           simpl; tauto|]).
  destruct H.
Qed.

Lemma exports_are_attributes_of_declared_resources_witness :
  exists r a, In r (stack ∅) /\ Attr "master-instance" "private_ip" = attr r a
              /\ In a ["id"; "public_ip"; "private_ip"].
Proof.
  destruct (exports_are_attributes_of_declared_resources ∅) as (_ & _ & H).
  apply (H "master_private_ip"). vm_compute. reflexivity.
Defined.

End Exports.

Section DeclarationOrder.

Lemma existsb_eqb_In n (seen : list string) :
  existsb (String.eqb n) seen = true <-> In n seen.
Proof.
  rewrite existsb_exists. split.
  - intros (x & Hx & ->%String.eqb_eq). done.
  - intros H. exists n. by rewrite String.eqb_refl.
Qed.

(** In a list that passes [well_ordered], what a declaration reads was
    declared before it. *)
Lemma well_ordered_earlier seen (l : list Resource) :
  well_ordered seen l = true ->
  forall i r d, l !! i = Some r -> In d (depends_on r) ->
  In d.1 seen \/ exists j r', j < i /\ l !! j = Some r' /\ rname r' = d.1.
Proof.
  revert seen; induction l as [|x l IH]; intros seen H i r d Hi Hd; [done|].
  simpl in H. apply andb_true_iff in H as [[_ Hx]%andb_true_iff Hl].
  destruct i as [|i]; simpl in Hi.
  - injection Hi as ->. left. rewrite forallb_forall in Hx.
    by apply existsb_eqb_In, Hx.
  - destruct (IH _ Hl i r d Hi Hd) as [[<-|Hs]|(j & r' & Hj & Hr' & Hn)].
    + right. exists 0, x. split; [lia|]. done.
    + by left.
    + right. exists (S j), r'. split; [lia|]. done.
Qed.

Lemma well_ordered_NoDup seen (l : list Resource) :
  well_ordered seen l = true -> NoDup (map rname l).
Proof.
  revert seen; induction l as [|x l IH]; intros seen H; [constructor|].
  pose proof H as H'. simpl in H'.
  apply andb_true_iff in H' as [_ Hl].
  simpl. constructor; [|by eapply IH].
  intros (r & Hr & Hin)%list_elem_of_In%in_map_iff.
  pose proof (well_ordered_fresh _ _ _ Hl Hin) as Hf. simpl in Hf.
  apply orb_false_iff in Hf as [Hf _].
  rewrite Hr, String.eqb_refl in Hf. done.
Qed.

(** X11. For every configuration, the twelve declarations have twelve
    different logical names, and each argument that reads an attribute of a
    resource reads it from a resource declared earlier in the program: the
    dependencies follow the declaration order and form no cycle. *)
Theorem declarations_follow_dependencies (cfg : gmap string string) :
  NoDup (map rname (stack cfg))
  /\ length (stack cfg) = 12
  /\ forall i r d,
       stack cfg !! i = Some r -> In d (depends_on r) ->
       exists j r', j < i /\ stack cfg !! j = Some r' /\ rname r' = d.1.
Proof.
  split; [apply (well_ordered_NoDup []), stack_well_ordered|].
  split; [done|].
  intros i r d Hi Hd.
  destruct (well_ordered_earlier [] (stack cfg) (stack_well_ordered cfg)
              i r d Hi Hd) as [[]|H].
  exact H.
Qed.

Lemma declarations_follow_dependencies_witness :
  exists j r', j < 11 /\ stack ∅ !! j = Some r'
    /\ rname r' = "worker2-instance".
Proof.
  destruct (declarations_follow_dependencies ∅) as (_ & _ & H).
  apply (H 11 (nginx_instance ∅) ("worker2-instance", "private_ip"));
    [reflexivity | simpl; auto 10].
Defined.

End DeclarationOrder.

Section Stability.

Import Py.

(** X12. A script the replace chain produced from addresses that hold no
    token holds no token itself, so passing it through the chain again,
    with any addresses, gives it back unchanged. *)
Theorem rendered_script_is_stable m w1 w2 m' w1' w2' :
  token_free m = true -> token_free w1 = true -> token_free w2 = true ->
  token_free (backend_config m w1 w2) = true
  /\ nginx_lambda (backend_config m w1 w2) [m'; w1'; w2']
     = Some (backend_config m w1 w2).
Proof.
  intros (Hm0 & Hm1 & Hm2)%token_free_spec (H10 & H11 & H12)%token_free_spec
         (H20 & H21 & H22)%token_free_spec.
  assert (contains MASTER_PRIVATE_IP (backend_config m w1 w2) = false) as E0
    by (by apply backend_config_token_free).
  assert (contains WORKER1_PRIVATE_IP (backend_config m w1 w2) = false) as E1
    by (by apply backend_config_token_free).
  assert (contains WORKER2_PRIVATE_IP (backend_config m w1 w2) = false) as E2
    by (by apply backend_config_token_free).
  split; [by apply token_free_spec|].
  rewrite nginx_lambda_three. f_equal.
  rewrite (replace_absent MASTER_PRIVATE_IP m') by done.
  rewrite (replace_absent WORKER1_PRIVATE_IP w1') by done.
  by rewrite (replace_absent WORKER2_PRIVATE_IP w2') by done.
Qed.

Lemma rendered_script_is_stable_witness :
  nginx_lambda (backend_config "10.0.1.10" "10.0.1.11" "10.0.1.12")
    ["10.9.9.1"; "10.9.9.2"; "10.9.9.3"]
  = Some (backend_config "10.0.1.10" "10.0.1.11" "10.0.1.12").
Proof.
  apply rendered_script_is_stable; vm_compute; reflexivity.
Defined.

End Stability.

Section ReplaceEquations.

Import Py.

Lemma replace_from_skip old new x b :
  replace_from old new (String.length x) (x +:+ b) = replace_from old new 0 b.
Proof.
  induction x as [|c x IH]; [by destruct b|].
  rewrite app_cons. simpl. exact IH.
Qed.

(** X13. The model of [str.replace] obeys the equations of replacing
    leftmost first without overlap: for a non-empty [old], a text that
    begins with [old] has that occurrence replaced and the scan goes on
    after it; a text that does not begin with [old] keeps its first
    character and the scan goes on with the next; the empty text is left
    empty. *)
Theorem replace_scans_left_to_right old new c s :
  old <> "" ->
  replace old new (old +:+ s) = new +:+ replace old new s
  /\ (startswith old (String c s) = false ->
      replace old new (String c s) = String c (replace old new s))
  /\ replace old new "" = "".
Proof.
  intros Hold. destruct old as [|o old]; [done|]. clear Hold.
  unfold replace. split; [|split; [apply replace_from_miss|done]].
  rewrite app_cons.
  change (replace_from (String o old) new 0 (String o (old +:+ s)))
    with (if startswith (String o old) (String o (old +:+ s))
          then new +:+ replace_from (String o old) new
                         (String.length (String o old) - 1) (old +:+ s)
          else String o (replace_from (String o old) new 0 (old +:+ s))).
  rewrite <- app_cons, startswith_app. f_equal.
  replace (String.length (String o old) - 1) with (String.length old)
    by (simpl; lia).
  apply replace_from_skip.
Qed.

Lemma replace_scans_left_to_right_witness :
  replace "ab" "X" ("ab" +:+ "cab") = "X" +:+ replace "ab" "X" "cab".
Proof.
  apply (replace_scans_left_to_right "ab" "X" "c" "cab"). discriminate.
Defined.

End ReplaceEquations.

Section Runs.

(** X14. Under the engine modelled from the specification, the program
    falls into six topological batches: the VPC; the subnet, the gateway,
    the route table and the load balancer's security group; the route, the
    association and the nodes' security group; the master; the two workers;
    the load balancer.  For every configuration and every provider that
    answers each creation call with attributes, one pass issues twelve
    creation calls, batch after batch, skips nothing, leaves every resource
    created, and resolves all sixteen exports. *)
Theorem all_created_when_provider_succeeds
    (cfg : gmap string string) (f : Resource -> list string -> attrs) :
  map (map rname) (topologicalBatches (stack cfg))
  = [ ["my-vpc"];
      ["public-subnet"; "internet-gateway"; "public-route-table"; "lb-secgrp"];
      ["igw-route"; "public-route-table-association"; "k3s-secgrp"];
      ["master-instance"];
      ["worker1-instance"; "worker2-instance"];
      ["nginx-instance"] ]
  /\ run (stack cfg) (schedule (stack cfg) (always f) (stack cfg) ∅) ∅
     = Some (provision (stack cfg) (always f) (stack cfg) ∅)
  /\ map action_name (schedule (stack cfg) (always f) (stack cfg) ∅)
     = map rname (concat (topologicalBatches (stack cfg)))
  /\ forallb is_created_call (schedule (stack cfg) (always f) (stack cfg) ∅)
     = true
  /\ forallb (fun r => created (provision (stack cfg) (always f) (stack cfg) ∅)
                         (rname r)) (stack cfg) = true
  /\ size (stack_outputs (exports cfg)
             (provision (stack cfg) (always f) (stack cfg) ∅)) = 16.
Proof.
  split; [reflexivity|].
  split; [exact (schedule_run (stack cfg) (always f) (stack cfg) ∅)|].
  split; [vm_compute; reflexivity|].
  split; [vm_compute; reflexivity|].
  split; [vm_compute; reflexivity|].
  vm_compute; reflexivity.
Qed.

(** X15. Under the same engine, when the provider refuses the load
    balancer's security group and creates everything else, the load
    balancer is never attempted and ends failed upstream, while the master
    and both workers, which do not read that group, are created as usual;
    only the load balancer's three exports stay unresolved. *)
Theorem cluster_survives_lb_group_failure
    (cfg : gmap string string) (msg : string)
    (f : Resource -> list string -> attrs) :
  run (stack cfg)
      (schedule (stack cfg) (refusing "lb-secgrp" msg f) (stack cfg) ∅) ∅
    = Some (provision (stack cfg) (refusing "lb-secgrp" msg f) (stack cfg) ∅)
  /\ provision (stack cfg) (refusing "lb-secgrp" msg f) (stack cfg) ∅
       !! "lb-secgrp" = Some (Failed (ProviderError msg))
  /\ provision (stack cfg) (refusing "lb-secgrp" msg f) (stack cfg) ∅
       !! "nginx-instance" = Some (Failed UpstreamFailure)
  /\ List.filter is_skip
       (schedule (stack cfg) (refusing "lb-secgrp" msg f) (stack cfg) ∅)
     = [Skip "nginx-instance"]
  /\ forallb
       (created (provision (stack cfg) (refusing "lb-secgrp" msg f)
                   (stack cfg) ∅))
       ["master-instance"; "worker1-instance"; "worker2-instance"] = true
  /\ size (stack_outputs (exports cfg)
             (provision (stack cfg) (refusing "lb-secgrp" msg f)
                (stack cfg) ∅)) = 13.
Proof.
  split; [exact (schedule_run (stack cfg) _ (stack cfg) ∅)|].
  split; [vm_compute; reflexivity|].
  split; [vm_compute; reflexivity|].
  split; [vm_compute; reflexivity|].
  split; [vm_compute; reflexivity|].
  vm_compute; reflexivity.
Qed.

End Runs.
